(** * orthoreader: the search agent for early church fathers' works

    A shallow embedding of [src/agents/search_agent.py] (class
    [SearchAgent]) and the properties of its three public behaviours:
    the two per-source search strategies, the aggregator
    [find_works_by_author] and the quality assessor
    [validate_source_quality].

    Modelling conventions.
    - A Python [str] is a [string]; a character is a code point below
      256 (Latin-1), where [str.lower] and [str.isspace] are the tables
      written out below.
    - A Python [int] is a [Z].
    - The network ([requests.Session.get]) and the HTML parser
      ([BeautifulSoup]) are the environment: a [World] says, for every URL
      and every response body, whether the call raises or what it returns,
      the same way each time it is asked.
    - A method is a computation [Py A]: it reads the world, returns a value
      or raises an [Exception], and leaves a trace of the effects it
      performed (requests sent, sleeps, lines printed). *)

From Stdlib Require Import ZArith Ascii String List Bool Lia.
From stdpp Require Import base option list gmap strings pretty.

Local Open Scope string_scope.
Local Open Scope list_scope.
Local Open Scope Z_scope.

(** ** Python string operations *)

(** [str.isspace] on one character: TAB, LF, VT, FF, CR, the four
    separators FS, GS, RS, US, the space, NEL and the no-break space. *)
Definition isspace (c : ascii) : bool :=
  let n := N_of_ascii c in
  ((9 <=? n) && (n <=? 13) || (28 <=? n) && (n <=? 32)
   || (n =? 133) || (n =? 160))%N.

(** [str.lower] on one character: [A]-[Z] and the Latin-1 capitals
    (0xC0-0xDE but the multiplication sign 0xD7) move up by 32. *)
Definition lower_char (c : ascii) : ascii :=
  let n := N_of_ascii c in
  if ((65 <=? n) && (n <=? 90)
      || (192 <=? n) && (n <=? 222) && negb (n =? 215))%N
  then ascii_of_N (n + 32) else c.

(** [s.lower()] *)
Fixpoint str_lower (s : string) : string :=
  match s with
  | EmptyString => EmptyString
  | String c s' => String (lower_char c) (str_lower s')
  end.

(** [s.lstrip()] *)
Fixpoint str_lstrip (s : string) : string :=
  match s with
  | EmptyString => EmptyString
  | String c s' => if isspace c then str_lstrip s' else s
  end.

(** [s.rstrip()] *)
Fixpoint str_rstrip (s : string) : string :=
  match s with
  | EmptyString => EmptyString
  | String c s' =>
      match str_rstrip s' with
      | EmptyString => if isspace c then EmptyString else String c EmptyString
      | r => String c r
      end
  end.

(** [s.strip()] *)
Definition str_strip (s : string) : string := str_rstrip (str_lstrip s).

(** [s.split()] with no separator: the maximal runs of characters that are
    not white space, in order; [tok] is the run being read, if any. *)
Fixpoint split_from (tok : option string) (s : string) : list string :=
  match s with
  | EmptyString => match tok with Some t => [t] | None => [] end
  | String c s' =>
      if isspace c
      then match tok with
           | Some t => t :: split_from None s'
           | None => split_from None s'
           end
      else split_from (Some (default EmptyString tok +:+ String c EmptyString)) s'
  end.

Definition str_split (s : string) : list string := split_from None s.

(** [s.startswith(p)] *)
Fixpoint str_startswith (p s : string) : bool :=
  match p, s with
  | EmptyString, _ => true
  | String _ _, EmptyString => false
  | String a p', String b s' => Ascii.eqb a b && str_startswith p' s'
  end.

(** [needle in hay] on strings: [needle] occurs as a substring. *)
Fixpoint str_in (needle hay : string) : bool :=
  str_startswith needle hay
  || match hay with
     | EmptyString => false
     | String _ hay' => str_in needle hay'
     end.

(** The truth value of a string in a condition: non-empty. *)
Definition truthy (s : string) : bool := negb (String.eqb s EmptyString).

(** [len(l)] *)
Definition len {A} (l : list A) : Z := Z.of_nat (List.length l).

(** ** The environment and the effects of a method *)

(** An instance of Python's [Exception], the class the handlers of the
    agent catch; [str(e)] is its message. *)
Inductive Exception : Type := Exc (msg : string).

Definition exc_str (e : Exception) : string :=
  match e with Exc msg => msg end.

(** What [requests] hands back when [get] returns: the code reads only
    [content] and never looks at [status_code]. *)
Record Response : Type := mkResponse {
  status_code : Z;
  content : string
}.

(** One [<a>] element of a parsed page: [link.get_text()] and
    [link.get('href')]. *)
Record Anchor : Type := mkAnchor {
  get_text : string;
  href : string
}.

(** A parsed page: [soup.find_all('a', href=True)], in document order, and
    [soup.get_text()]. *)
Record Soup : Type := mkSoup {
  find_all_a : list Anchor;
  soup_text : string
}.

(** The world outside the program: what [session.get(url)] and
    [BeautifulSoup(content, 'html.parser')] do, each either raising
    ([inl]) or returning ([inr]). *)
Record World : Type := mkWorld {
  http_get : string -> Exception + Response;
  html_parser : string -> Exception + Soup
}.

(** The effects a method leaves behind, oldest first. *)
Inductive Event : Type :=
| EvGet (url : string)
| EvSleep (seconds : Z)
| EvPrint (line : string).

Inductive Outcome (A : Type) : Type :=
| Returned (a : A)
| Raised (e : Exception).
Arguments Returned {A} a.
Arguments Raised {A} e.

Definition Py (A : Type) : Type := World -> Outcome A * list Event.

Definition ret {A} (a : A) : Py A := fun _ => (Returned a, []).

Definition bind {A B} (m : Py A) (k : A -> Py B) : Py B :=
  fun w =>
    match m w with
    | (Returned a, t) => let '(o, t') := k a w in (o, t ++ t')
    | (Raised e, t) => (Raised e, t)
    end.

(** [try: body  except Exception as e: handler e] *)
Definition try_except {A} (body : Py A) (handler : Exception -> Py A) : Py A :=
  fun w =>
    match body w with
    | (Returned a, t) => (Returned a, t)
    | (Raised e, t) => let '(o, t') := handler e w in (o, t ++ t')
    end.

Declare Scope py_scope.
Delimit Scope py_scope with py.
Notation "x <- m ;; k" := (bind m (fun x => k))
  (at level 100, m at next level, right associativity) : py_scope.
Notation "m ;;; k" := (bind m (fun _ => k))
  (at level 100, right associativity) : py_scope.
Local Open Scope py_scope.

(** [self.session.get(url)] *)
Definition session_get (url : string) : Py Response :=
  fun w =>
    (match http_get w url with
     | inl e => Raised e
     | inr r => Returned r
     end, [EvGet url]).

(** [BeautifulSoup(content, 'html.parser')] *)
Definition BeautifulSoup (markup : string) : Py Soup :=
  fun w =>
    (match html_parser w markup with
     | inl e => Raised e
     | inr s => Returned s
     end, []).

(** [time.sleep(seconds)] *)
Definition time_sleep (seconds : Z) : Py unit :=
  fun _ => (Returned tt, [EvSleep seconds]).

(** [print(line)] *)
Definition print (line : string) : Py unit :=
  fun _ => (Returned tt, [EvPrint line]).

(** ** The data of the agent *)

(** [self.sources], a dictionary with the fixed keys ["ccel"] and
    ["newadvent"]; each field is one path into it. *)
Record SearchAgent : Type := mkSearchAgent {
  ccel_base_url : string;
  ccel_search_url : string;
  ccel_authors : gmap string string;
  newadvent_base_url : string;
  newadvent_search_url : string
}.

(** [SearchAgent.__init__] *)
Definition SearchAgent_init : SearchAgent := {|
  ccel_base_url := "https://www.ccel.org";
  ccel_search_url := "https://www.ccel.org/search";
  ccel_authors :=
    <["St John Chrysostom" := "/ccel/chrysostom"]>
    (<["St Augustine" := "/ccel/augustine"]>
    (<["St Basil" := "/ccel/basil"]>
    (<["St Gregory" := "/ccel/gregory"]> ∅)));
  newadvent_base_url := "https://www.newadvent.org";
  newadvent_search_url := "https://www.newadvent.org/fathers"
|}.

(** An entry of the list a search returns: a dictionary with the keys
    ['title'], ['url'], ['source'] and ['author']. *)
Record Work : Type := mkWork {
  title : string;
  url : string;
  source : string;
  author : string
}.

(** The dictionary [validate_source_quality] returns. *)
Record QualityReport : Type := mkQualityReport {
  quality_score : Z;
  word_count : Z;
  issues : list string;
  is_valid : bool
}.

(** ** The methods *)

(** The body of the loop of [_search_ccel] (lines 65-74): [works] is the
    list being appended to. *)
Definition ccel_visit (self : SearchAgent) (author_name author_path : string)
    (works : list Work) (link : Anchor) : list Work :=
  let href := href link in
  if truthy href && str_in "/ccel/" href && negb (String.eqb href author_path)
  then
    let title := str_strip (get_text link) in
    if truthy title
    then works ++ [ {| title := title;
                       url := ccel_base_url self +:+ href;
                       source := "ccel";
                       author := author_name |} ]
    else works
  else works.

(** [SearchAgent._search_ccel]. The calls that can raise come before the
    loop, so [works] is still empty when the handler runs. *)
Definition _search_ccel (self : SearchAgent) (author_name : string)
    : Py (list Work) :=
  let works : list Work := [] in
  match ccel_authors self !! author_name with
  | None => ret works
  | Some author_path =>
      if negb (truthy author_path) then ret works
      else
        try_except
          (let url := ccel_base_url self +:+ author_path in
           response <- session_get url ;;
           soup <- BeautifulSoup (content response) ;;
           let links := find_all_a soup in
           let works :=
             fold_left (ccel_visit self author_name author_path) links works in
           time_sleep 1 ;;;
           ret works)
          (fun e =>
             print ("Error searching CCEL for " +:+ author_name +:+ ": "
                    +:+ exc_str e) ;;;
             ret works)
  end.

(** The body of the loop of [_search_newadvent] (lines 96-105). *)
Definition newadvent_visit (self : SearchAgent) (author_name : string)
    (works : list Work) (link : Anchor) : list Work :=
  let text := str_lower (get_text link) in
  if str_in (str_lower author_name) text
  then
    let href := href link in
    if truthy href && str_in "/fathers/" href
    then works ++ [ {| title := str_strip (get_text link);
                       url := newadvent_base_url self +:+ href;
                       source := "newadvent";
                       author := author_name |} ]
    else works
  else works.

(** [SearchAgent._search_newadvent] *)
Definition _search_newadvent (self : SearchAgent) (author_name : string)
    : Py (list Work) :=
  let works : list Work := [] in
  try_except
    (let url := newadvent_search_url self in
     response <- session_get url ;;
     soup <- BeautifulSoup (content response) ;;
     let links := find_all_a soup in
     let works := fold_left (newadvent_visit self author_name) links works in
     time_sleep 1 ;;;
     ret works)
    (fun e =>
       print ("Error searching New Advent for " +:+ author_name +:+ ": "
              +:+ exc_str e) ;;;
       ret works).

(** [SearchAgent.find_works_by_author] *)
Definition find_works_by_author (self : SearchAgent) (author_name : string)
    : Py (list Work) :=
  let works : list Work := [] in
  works <-
    (if bool_decide (is_Some (ccel_authors self !! author_name))
     then
       ccel_works <- _search_ccel self author_name ;;
       ret (works ++ ccel_works)
     else ret works) ;;
  newadvent_works <- _search_newadvent self author_name ;;
  let works := works ++ newadvent_works in
  ret works.

(** Lines 120-148 of [validate_source_quality]: the report computed from a
    parsed page. *)
Definition quality_of_soup (soup : Soup) : QualityReport :=
  let text_content := soup_text soup in
  let word_count := len (str_split text_content) in
  let quality_score := 0 in
  let issues : list string := [] in
  let '(issues, quality_score) :=
    if word_count <? 100
    then (issues ++ ["Very short text"], quality_score - 2)
    else if word_count >? 10000
    then (issues, quality_score + 1)
    else (issues, quality_score) in
  let '(issues, quality_score) :=
    if str_in "page not found" (str_lower text_content)
    then (issues ++ ["Page not found"], quality_score - 3)
    else (issues, quality_score) in
  let '(issues, quality_score) :=
    if str_in "error" (str_lower text_content)
    then (issues ++ ["Error page"], quality_score - 2)
    else (issues, quality_score) in
  {| quality_score := quality_score;
     word_count := word_count;
     issues := issues;
     is_valid := quality_score >=? 0 |}.

(** [SearchAgent.validate_source_quality] *)
Definition validate_source_quality (self : SearchAgent) (url : string)
    : Py QualityReport :=
  try_except
    (response <- session_get url ;;
     soup <- BeautifulSoup (content response) ;;
     ret (quality_of_soup soup))
    (fun e =>
       ret {| quality_score := -1;
              word_count := 0;
              issues := ["Error accessing URL: " +:+ exc_str e];
              is_valid := false |}).

(** A URL is absolute when it starts with its scheme and the mark of an
    authority; the sites here are reached over HTTP or HTTPS. *)
Definition is_absolute_url (u : string) : bool :=
  str_startswith "https://" u || str_startswith "http://" u.

(** ** Sample pages and worlds

    Concrete inputs on which the methods are run. *)

Fixpoint str_repeat (n : nat) (s : string) : string :=
  match n with
  | O => EmptyString
  | S n' => s +:+ str_repeat n' s
  end.

(** 50 words, one of them ["Error"]. *)
Definition text_short_error : string :=
  str_repeat 48 "lorem " +:+ "Error 404".

(** 15000 words, nothing flagged. *)
Definition text_long : string := str_repeat (Z.to_nat 15000) "amen ".

(** 500 words, ending in ["page not found"]. *)
Definition text_missing : string :=
  str_repeat 497 "lorem " +:+ "page not found".

(** 50 words with both flagged substrings. *)
Definition text_worst : string :=
  str_repeat 45 "lorem " +:+ "Error 404: Page Not Found".

(** The listing of an author at CCEL: three works, the link of the
    listing to itself, a link without text and a navigation link. *)
Definition ccel_anchors : list Anchor :=
  [ {| get_text := "  Confessions "; href := "/ccel/augustine/confessions" |};
    {| get_text := "St Augustine"; href := "/ccel/augustine" |};
    {| get_text := "   "; href := "/ccel/augustine/blank" |};
    {| get_text := "City of God"; href := "/ccel/augustine/city" |};
    {| get_text := "Home"; href := "/index.html" |};
    {| get_text := "On Christian Doctrine"; href := "/ccel/augustine/doctrine" |} ].

(** The shared listing at New Advent: three works of Augustine, one
    encyclopedia entry about him and one work of another author. *)
Definition newadvent_anchors : list Anchor :=
  [ {| get_text := "Confessions (ST AUGUSTINE)"; href := "/fathers/1101.htm" |};
    {| get_text := "St Augustine of Hippo"; href := "/cathen/02084a.htm" |};
    {| get_text := " Letters of st augustine "; href := "/fathers/1102.htm" |};
    {| get_text := "Homilies (St John Chrysostom)"; href := "/fathers/2001.htm" |};
    {| get_text := "City of God - St Augustine"; href := "/fathers/1201.htm" |} ].

(** How a site answers: with its page, with a refused connection, or with
    a body the parser rejects. *)
Inductive Site : Type := Up | Down | Garbled.

(** A world with the two sites in a given state; a body is a name the
    parser resolves to a page. *)
Definition sample_world (ccel newadvent : Site) : World := {|
  http_get := fun url =>
    if String.eqb url "https://www.ccel.org/ccel/augustine" then
      match ccel with
      | Up => inr {| status_code := 200; content := "ccel-augustine" |}
      | Down => inl (Exc "ccel: connection refused")
      | Garbled => inr {| status_code := 200; content := "garbled" |}
      end
    else if String.eqb url "https://www.newadvent.org/fathers" then
      match newadvent with
      | Up => inr {| status_code := 200; content := "newadvent-fathers" |}
      | Down => inl (Exc "newadvent: timed out")
      | Garbled => inr {| status_code := 200; content := "garbled" |}
      end
    else if String.eqb url "https://example.org/short" then
      inr {| status_code := 200; content := "short" |}
    else if String.eqb url "https://example.org/long" then
      inr {| status_code := 200; content := "long" |}
    else if String.eqb url "https://example.org/missing" then
      inr {| status_code := 404; content := "missing" |}
    else if String.eqb url "https://example.org/worst" then
      inr {| status_code := 200; content := "worst" |}
    else if String.eqb url "https://example.org/garbled" then
      inr {| status_code := 200; content := "garbled" |}
    else inl (Exc "name resolution failed");
  html_parser := fun markup =>
    if String.eqb markup "ccel-augustine" then
      inr {| find_all_a := ccel_anchors; soup_text := "Works of St Augustine" |}
    else if String.eqb markup "newadvent-fathers" then
      inr {| find_all_a := newadvent_anchors; soup_text := "The Fathers of the Church" |}
    else if String.eqb markup "short" then
      inr {| find_all_a := []; soup_text := text_short_error |}
    else if String.eqb markup "long" then
      inr {| find_all_a := []; soup_text := text_long |}
    else if String.eqb markup "missing" then
      inr {| find_all_a := []; soup_text := text_missing |}
    else if String.eqb markup "worst" then
      inr {| find_all_a := []; soup_text := text_worst |}
    else inl (Exc "markup rejected")
|}.

(** ** The script at the end of the module *)

(** [for x in l: body x] *)
Fixpoint for_each {A} (l : list A) (body : A -> Py unit) : Py unit :=
  match l with
  | [] => ret tt
  | x :: l' => body x ;;; for_each l' body
  end.

(** [str(n)] on an [int]: its decimal digits. *)
Definition str_of_int (n : Z) : string := pretty n.

(** The block under [if __name__ == "__main__"] (lines 158-164);
    [works[:5]] is [take 5 works]. *)
Definition main : Py unit :=
  let agent := SearchAgent_init in
  works <- find_works_by_author agent "St John Chrysostom" ;;
  print ("Found " +:+ str_of_int (len works) +:+ " works by St John Chrysostom") ;;;
  for_each (take 5 works)
    (fun work => print ("- " +:+ title work +:+ " (" +:+ source work +:+ ")")).

(** ** Reading a trace *)

(** The URLs requested, in order. *)
Fixpoint requests (t : list Event) : list string :=
  match t with
  | [] => []
  | EvGet u :: t' => u :: requests t'
  | _ :: t' => requests t'
  end.

(** The lines printed, in order. *)
Fixpoint printed (t : list Event) : list string :=
  match t with
  | [] => []
  | EvPrint line :: t' => line :: printed t'
  | _ :: t' => printed t'
  end.

(** The seconds slept in all. *)
Fixpoint slept (t : list Event) : Z :=
  match t with
  | [] => 0
  | EvSleep n :: t' => n + slept t'
  | _ :: t' => slept t'
  end.

(** ** More worlds *)

(** The world [w] with every status code replaced. *)
Definition with_status (status : string -> Z) (w : World) : World := {|
  http_get := fun url =>
    match http_get w url with
    | inl e => inl e
    | inr r => inr {| status_code := status url; content := content r |}
    end;
  html_parser := html_parser w
|}.

(** A world where every URL answers with the same page. *)
Definition static_world (status : Z) (soup : Soup) : World := {|
  http_get := fun _ => inr {| status_code := status; content := "body" |};
  html_parser := fun _ => inr soup
|}.

(** A string made of white space only; so is the empty string. *)
Fixpoint all_space (s : string) : bool :=
  match s with
  | EmptyString => true
  | String c s' => isspace c && all_space s'
  end.

(** 10002 words, the last one ["error"]. *)
Definition text_long_error : string :=
  str_repeat (Z.to_nat 10001) "amen " +:+ "error".

(** * Properties *)

(** ** Strings *)

Example split_ex :
  str_split "  In the  beginning
 was " = ["In"; "the"; "beginning"; "was"].
Proof. reflexivity. Qed.

Example strip_ex : str_strip "  City of God
 " = "City of God".
Proof. reflexivity. Qed.

Example in_ex : str_in "error" (str_lower "Error 404") = true.
Proof. reflexivity. Qed.

Lemma str_startswith_spec (p s : string) :
  str_startswith p s = true <-> exists r, s = p +:+ r.
Proof.
  revert s; induction p as [|a p IH]; intros s; simpl.
  - split; [intros _; exists s; reflexivity | reflexivity].
  - destruct s as [|b s]; simpl.
    + split; [discriminate | intros [r Hr]; discriminate].
    + rewrite andb_true_iff, Ascii.eqb_eq, IH. split.
      * intros [-> [r ->]]. exists r. reflexivity.
      * intros [r Hr]. injection Hr as -> ->. eauto.
Qed.

(** [needle in hay] holds exactly when [hay] is some text, then [needle],
    then some text. *)
Lemma str_in_spec (needle hay : string) :
  str_in needle hay = true <-> exists l r, hay = l +:+ needle +:+ r.
Proof.
  induction hay as [|c hay IH]; simpl.
  - rewrite orb_false_r, str_startswith_spec. split.
    + intros [r Hr]. exists "", r. exact Hr.
    + intros [[|c l] [r Hr]]; [eauto | discriminate].
  - rewrite orb_true_iff, str_startswith_spec, IH. split.
    + intros [[r Hr] | (l & r & ->)].
      * exists "", r. exact Hr.
      * exists (String c l), r. reflexivity.
    + intros ([|c' l] & r & Hr).
      * left. exists r. exact Hr.
      * right. injection Hr as -> ->. eauto.
Qed.

Lemma str_app_cons (c : ascii) (s t : string) :
  String c s +:+ t = String c (s +:+ t).
Proof. reflexivity. Qed.

Lemma str_app_assoc (s t u : string) : (s +:+ t) +:+ u = s +:+ t +:+ u.
Proof.
  induction s as [|c s IH]; [reflexivity|].
  now rewrite !str_app_cons, IH.
Qed.

Lemma str_lower_app (s t : string) :
  str_lower (s +:+ t) = str_lower s +:+ str_lower t.
Proof.
  induction s as [|c s IH]; [reflexivity|].
  rewrite str_app_cons. simpl. now rewrite IH, str_app_cons.
Qed.

Lemma str_in_app (needle l r : string) :
  str_in needle (l +:+ needle +:+ r) = true.
Proof. apply str_in_spec. eauto. Qed.

(** Containment survives lowering both sides, and a part of the needle is
    found wherever the needle is. *)
Lemma str_in_lower (needle hay : string) :
  str_in needle hay = true -> str_in (str_lower needle) (str_lower hay) = true.
Proof.
  rewrite !str_in_spec. intros (l & r & ->).
  exists (str_lower l), (str_lower r). now rewrite !str_lower_app.
Qed.

Lemma str_in_trans (a b c : string) :
  str_in a b = true -> str_in b c = true -> str_in a c = true.
Proof.
  rewrite !str_in_spec. intros (l1 & r1 & ->) (l2 & r2 & ->).
  exists (l2 +:+ l1), (r1 +:+ r2).
  now rewrite !str_app_assoc.
Qed.

Lemma truthy_spec (s : string) : truthy s = true <-> s <> "".
Proof.
  unfold truthy. rewrite negb_true_iff. split.
  - intros H ->. now rewrite String.eqb_refl in H.
  - intros H. now apply String.eqb_neq.
Qed.

Lemma str_in_truthy (needle hay : string) :
  needle <> "" -> str_in needle hay = true -> truthy hay = true.
Proof.
  intros Hn. rewrite str_in_spec, truthy_spec. intros (l & r & ->).
  destruct l; [destruct needle; [congruence | discriminate] | discriminate].
Qed.

(** ** Computations *)

(** Expose the steps of a method: what it returns and the trace it leaves
    are then a matter of what the world answers. *)
Ltac run_method :=
  unfold try_except, bind, session_get, BeautifulSoup, time_sleep, print, ret.

Lemma bind_ret_l {A B} (a : A) (k : A -> Py B) (w : World) :
  bind (ret a) k w = k a w.
Proof. unfold bind, ret. destruct (k a w). reflexivity. Qed.

Lemma bind_ret_r {A} (m : Py A) (w : World) : bind m ret w = m w.
Proof.
  unfold bind, ret. destruct (m w) as [[a|e] t]; [|reflexivity].
  now rewrite app_nil_r.
Qed.

Lemma bind_assoc {A B C} (m : Py A) (k : A -> Py B) (h : B -> Py C) (w : World) :
  bind (bind m k) h w = bind m (fun a => bind (k a) h) w.
Proof.
  unfold bind. destruct (m w) as [[a|e] t]; [|reflexivity].
  destruct (k a w) as [[b|e] t']; [|reflexivity].
  destruct (h b w) as [o t'']. now rewrite app_assoc.
Qed.

Lemma Returned_inj {A} (a b : A) (t t' : list Event) :
  (Returned a, t) = (Returned b, t') -> a = b /\ t = t'.
Proof. intros H. injection H as -> ->. split; reflexivity. Qed.

(** A [try] whose handler returns, returns. *)
Lemma try_except_returns {A} (body : Py A) (handler : Exception -> Py A) (w : World) :
  (forall e, exists a, fst (handler e w) = Returned a) ->
  exists a, fst (try_except body handler w) = Returned a.
Proof.
  intros H. unfold try_except. destruct (body w) as [[a|e] t]; [eauto|].
  destruct (H e) as [a Ha]. destruct (handler e w) as [o t']. eauto.
Qed.

(** ** The quality assessor *)

(** The report of the [except] branch of [validate_source_quality]. *)
Lemma validate_fetch_raises (self : SearchAgent) (w : World) (url : string) (e : Exception) :
  http_get w url = inl e ->
  validate_source_quality self url w =
    (Returned {| quality_score := -1; word_count := 0;
                 issues := ["Error accessing URL: " +:+ exc_str e];
                 is_valid := false |}, [EvGet url]).
Proof.
  intros Hget.
  unfold validate_source_quality. run_method.
  rewrite Hget. reflexivity.
Qed.

Lemma validate_parse_raises (self : SearchAgent) (w : World) (url : string)
    (resp : Response) (e : Exception) :
  http_get w url = inr resp ->
  html_parser w (content resp) = inl e ->
  validate_source_quality self url w =
    (Returned {| quality_score := -1; word_count := 0;
                 issues := ["Error accessing URL: " +:+ exc_str e];
                 is_valid := false |}, [EvGet url]).
Proof.
  intros Hget Hparse.
  unfold validate_source_quality. run_method.
  rewrite Hget, Hparse. reflexivity.
Qed.

Lemma validate_fetch_ok (self : SearchAgent) (w : World) (url : string)
    (resp : Response) (soup : Soup) :
  http_get w url = inr resp ->
  html_parser w (content resp) = inr soup ->
  validate_source_quality self url w =
    (Returned (quality_of_soup soup), [EvGet url]).
Proof.
  intros Hget Hparse.
  unfold validate_source_quality. run_method.
  rewrite Hget, Hparse. reflexivity.
Qed.

(** The assessor always returns a report: the one of the [except] branch
    or the one computed from the parsed page. *)
Lemma validate_cases (self : SearchAgent) (w : World) (url : string) :
  exists r,
    validate_source_quality self url w = (Returned r, [EvGet url])
    /\ ((exists e, r = {| quality_score := -1; word_count := 0;
                          issues := ["Error accessing URL: " +:+ exc_str e];
                          is_valid := false |})
        \/ (exists resp soup,
              http_get w url = inr resp
              /\ html_parser w (content resp) = inr soup
              /\ r = quality_of_soup soup)).
Proof.
  destruct (http_get w url) as [e|resp] eqn:Hget.
  - eexists. split; [apply validate_fetch_raises, Hget | left; eauto].
  - destruct (html_parser w (content resp)) as [e|soup] eqn:Hparse.
    + eexists. split; [eapply validate_parse_raises; eauto | left; eauto].
    + eexists. split; [eapply validate_fetch_ok; eauto | right; eauto].
Qed.

(** The score of a parsed page as a sum of three independent terms, and
    the issues as three independent pieces, in the order of the checks. *)
Lemma quality_of_soup_sum (soup : Soup) :
  let text := soup_text soup in
  let wc := len (str_split text) in
  let pnf := str_in "page not found" (str_lower text) in
  let err := str_in "error" (str_lower text) in
  let score :=
    (if wc <? 100 then -2 else if wc >? 10000 then 1 else 0)
    + (if pnf then -3 else 0)
    + (if err then -2 else 0) in
  quality_of_soup soup =
    {| quality_score := score;
       word_count := wc;
       issues := (if wc <? 100 then ["Very short text"] else [])
                 ++ (if pnf then ["Page not found"] else [])
                 ++ (if err then ["Error page"] else []);
       is_valid := score >=? 0 |}.
Proof.
  intros text wc pnf err score. unfold quality_of_soup.
  fold text. fold wc. fold pnf. fold err. subst score.
  destruct (wc <? 100), (wc >? 10000), pnf, err; reflexivity.
Qed.

Lemma quality_of_soup_bounds (soup : Soup) :
  -7 <= quality_score (quality_of_soup soup) <= 1.
Proof.
  rewrite quality_of_soup_sum. cbn [quality_score].
  repeat match goal with |- context [if ?b then _ else _] => destruct b end;
    lia.
Qed.

Lemma quality_of_soup_valid (soup : Soup) :
  is_valid (quality_of_soup soup) = (quality_score (quality_of_soup soup) >=? 0).
Proof. rewrite quality_of_soup_sum. reflexivity. Qed.

(** C1. For every URL and every world the assessor returns a report, and in
    that report [is_valid] is exactly [quality_score >= 0]: on the success
    path it is computed from the final score, on the failure path the
    score is [-1] and [is_valid] is [False]. *)
Theorem is_valid_iff_score_nonneg (self : SearchAgent) (w : World) (url : string) :
  exists r,
    validate_source_quality self url w = (Returned r, [EvGet url])
    /\ is_valid r = (quality_score r >=? 0).
Proof.
  destruct (validate_cases self w url) as (r & Hrun & Hr).
  exists r. split; [exact Hrun|].
  destruct Hr as [[e ->] | (resp & soup & _ & _ & ->)].
  - reflexivity.
  - apply quality_of_soup_valid.
Qed.

(** C3. When the fetch of the URL raises, the assessor returns (it does
    not raise) exactly the report with score [-1], word count [0], the one
    issue ["Error accessing URL: <cause>"] and [is_valid = False]; the
    request is the only effect. *)
Theorem fetch_failure_report (self : SearchAgent) (w : World) (url : string)
    (e : Exception) :
  http_get w url = inl e ->
  validate_source_quality self url w =
    (Returned {| quality_score := -1;
                 word_count := 0;
                 issues := ["Error accessing URL: " +:+ exc_str e];
                 is_valid := false |},
     [EvGet url]).
Proof.
  intros Hget. unfold validate_source_quality. run_method.
  (* the request raises, so the handler builds the report *)
  rewrite Hget. reflexivity.
Qed.

Lemma fetch_failure_report_witness :
  validate_source_quality SearchAgent_init "https://example.org/nowhere"
    (sample_world Up Up) =
    (Returned {| quality_score := -1;
                 word_count := 0;
                 issues := ["Error accessing URL: name resolution failed"];
                 is_valid := false |},
     [EvGet "https://example.org/nowhere"]).
Proof.
  apply (fetch_failure_report SearchAgent_init (sample_world Up Up)
           "https://example.org/nowhere" (Exc "name resolution failed")).
  reflexivity.
Defined.

(** C2. On a successful fetch the score starts at 0 and is the sum of the
    word-count term ([-2] below 100 words, else [+1] above 10000, else
    [0]), [-3] if the lowered text contains ["page not found"] and [-2] if
    it contains ["error"]; the three checks do not depend on one another and
    the issues come in the order of the checks.  The three sample cases
    follow, each for a text in which the flagged substring it names is the
    only one: 50 words with ["Error 404"], 15000 words with nothing flagged,
    500 words with ["page not found"]. The first and the third text are
    invalid whatever else they contain. *)
Theorem score_is_sum_of_checks (self : SearchAgent) (w : World) (url : string)
    (resp : Response) (soup : Soup) :
  http_get w url = inr resp ->
  html_parser w (content resp) = inr soup ->
  let text := soup_text soup in
  let wc := len (str_split text) in
  let pnf := str_in "page not found" (str_lower text) in
  let err := str_in "error" (str_lower text) in
  let score :=
    (if wc <? 100 then -2 else if wc >? 10000 then 1 else 0)
    + (if pnf then -3 else 0)
    + (if err then -2 else 0) in
  let run := validate_source_quality self url w in
  run = (Returned
           {| quality_score := score;
              word_count := wc;
              issues := (if wc <? 100 then ["Very short text"] else [])
                        ++ (if pnf then ["Page not found"] else [])
                        ++ (if err then ["Error page"] else []);
              is_valid := score >=? 0 |},
         [EvGet url])
  /\ (wc = 50 -> str_in "Error 404" text = true ->
        (exists r, run = (Returned r, [EvGet url]) /\ is_valid r = false)
        /\ (pnf = false ->
            run = (Returned
                     {| quality_score := -4;
                        word_count := 50;
                        issues := ["Very short text"; "Error page"];
                        is_valid := false |},
                   [EvGet url])))
  /\ (wc = 15000 -> pnf = false -> err = false ->
        run = (Returned
                 {| quality_score := 1;
                    word_count := 15000;
                    issues := [];
                    is_valid := true |},
               [EvGet url]))
  /\ (wc = 500 -> str_in "page not found" text = true ->
        (exists r, run = (Returned r, [EvGet url]) /\ is_valid r = false)
        /\ (err = false ->
            run = (Returned
                     {| quality_score := -3;
                        word_count := 500;
                        issues := ["Page not found"];
                        is_valid := false |},
                   [EvGet url]))).
Proof.
  intros Hget Hparse text wc pnf err score run.
  assert (Hrun : run = (Returned (quality_of_soup soup), [EvGet url]))
    by (eapply validate_fetch_ok; eauto).
  rewrite Hrun, quality_of_soup_sum.
  fold text. fold wc. fold pnf. fold err. fold score.
  split; [reflexivity|]. subst score.
  assert (Herror : str_in "Error 404" text = true -> err = true).
  { intros Hin. apply str_in_trans with (b := str_lower "Error 404");
      [reflexivity | now apply str_in_lower]. }
  split; [|split].
  - intros Hwc Hin. rewrite Hwc, (Herror Hin). split.
    + eexists. split; [reflexivity|]. destruct pnf; reflexivity.
    + intros ->. reflexivity.
  - intros -> -> ->. reflexivity.
  - intros Hwc Hin.
    assert (Hpnf : pnf = true) by (now apply (str_in_lower "page not found")).
    rewrite Hwc, Hpnf. split.
    + eexists. split; [reflexivity|]. destruct err; reflexivity.
    + intros ->. reflexivity.
Qed.

Lemma score_is_sum_of_checks_witness :
  let w := sample_world Up Up in
  validate_source_quality SearchAgent_init "https://example.org/short" w =
    (Returned {| quality_score := -4; word_count := 50;
                 issues := ["Very short text"; "Error page"];
                 is_valid := false |},
     [EvGet "https://example.org/short"])
  /\ validate_source_quality SearchAgent_init "https://example.org/long" w =
    (Returned {| quality_score := 1; word_count := 15000;
                 issues := []; is_valid := true |},
     [EvGet "https://example.org/long"])
  /\ validate_source_quality SearchAgent_init "https://example.org/missing" w =
    (Returned {| quality_score := -3; word_count := 500;
                 issues := ["Page not found"]; is_valid := false |},
     [EvGet "https://example.org/missing"]).
Proof.
  intros w. split; [|split].
  - pose proof (score_is_sum_of_checks SearchAgent_init w
                  "https://example.org/short"
                  {| status_code := 200; content := "short" |}
                  {| find_all_a := []; soup_text := text_short_error |}
                  eq_refl eq_refl) as H.
    cbv zeta in H. destruct H as (_ & H & _ & _).
    apply H; vm_compute; reflexivity.
  - pose proof (score_is_sum_of_checks SearchAgent_init w
                  "https://example.org/long"
                  {| status_code := 200; content := "long" |}
                  {| find_all_a := []; soup_text := text_long |}
                  eq_refl eq_refl) as H.
    cbv zeta in H. destruct H as (_ & _ & H & _).
    apply H; vm_compute; reflexivity.
  - pose proof (score_is_sum_of_checks SearchAgent_init w
                  "https://example.org/missing"
                  {| status_code := 404; content := "missing" |}
                  {| find_all_a := []; soup_text := text_missing |}
                  eq_refl eq_refl) as H.
    cbv zeta in H. destruct H as (_ & _ & _ & H).
    apply H; vm_compute; reflexivity.
Defined.

(** C10. The score of every report lies between [-7] and [1]. On a
    successful fetch it is [-7] exactly when the three penalties apply and
    [1] exactly when the text has more than 10000 words and no flagged
    substring; when the fetch raises it is [-1]. So a valid report has score
    [0] or [1]. *)
Theorem quality_score_range (self : SearchAgent) (w : World) (url : string) :
  exists r,
    validate_source_quality self url w = (Returned r, [EvGet url])
    /\ -7 <= quality_score r <= 1
    /\ (is_valid r = true -> quality_score r = 0 \/ quality_score r = 1)
    /\ (forall e, http_get w url = inl e -> quality_score r = -1)
    /\ (forall resp soup,
          http_get w url = inr resp ->
          html_parser w (content resp) = inr soup ->
          let text := soup_text soup in
          let wc := len (str_split text) in
          let pnf := str_in "page not found" (str_lower text) in
          let err := str_in "error" (str_lower text) in
          (quality_score r = -7 <-> wc < 100 /\ pnf = true /\ err = true)
          /\ (quality_score r = 1 <-> wc > 10000 /\ pnf = false /\ err = false)).
Proof.
  destruct (http_get w url) as [e|resp] eqn:Hget.
  { eexists. split; [apply validate_fetch_raises, Hget|]. cbn [quality_score is_valid].
    split; [lia|]. split; [discriminate|]. split; [reflexivity|]. discriminate. }
  destruct (html_parser w (content resp)) as [e|soup] eqn:Hparse.
  { eexists. split; [eapply validate_parse_raises; eauto|]. cbn [quality_score is_valid].
    split; [lia|]. split; [discriminate|]. split; [reflexivity|].
    intros resp' soup' Hget'. injection Hget' as <-. congruence. }
  eexists. split; [eapply validate_fetch_ok; eauto|].
  split; [apply quality_of_soup_bounds|].
  split.
  { rewrite quality_of_soup_valid. intros Hv.
    pose proof (quality_of_soup_bounds soup). lia. }
  split; [discriminate|].
  intros resp' soup' Hget'. injection Hget' as <-.
  rewrite Hparse. intros Hparse'. injection Hparse' as <-.
  intros text wc pnf err. rewrite quality_of_soup_sum.
  fold text. fold wc. fold pnf. fold err. cbn [quality_score].
  destruct (Z.ltb_spec wc 100), (Z.gtb_spec wc 10000), pnf, err;
    split; split; try lia; try discriminate; try reflexivity;
    intros (? & ? & ?); try lia; try discriminate.
Qed.

Lemma quality_score_range_witness :
  let w := sample_world Up Up in
  (exists r,
     validate_source_quality SearchAgent_init "https://example.org/long" w
       = (Returned r, [EvGet "https://example.org/long"])
     /\ is_valid r = true
     /\ (quality_score r = 0 \/ quality_score r = 1)
     /\ quality_score r = 1)
  /\ (exists r,
        validate_source_quality SearchAgent_init "https://example.org/worst" w
          = (Returned r, [EvGet "https://example.org/worst"])
        /\ quality_score r = -7)
  /\ (exists r,
        validate_source_quality SearchAgent_init "https://example.org/nowhere" w
          = (Returned r, [EvGet "https://example.org/nowhere"])
        /\ quality_score r = -1).
Proof.
  intros w. split; [|split].
  - destruct (quality_score_range SearchAgent_init w "https://example.org/long")
      as (r & Hrun & _ & Hvalid & _ & Hok).
    specialize (Hok {| status_code := 200; content := "long" |}
                    {| find_all_a := []; soup_text := text_long |}
                    eq_refl eq_refl).
    cbv zeta in Hok. destruct Hok as [_ Hmax].
    assert (Hone : quality_score r = 1).
    { apply Hmax. vm_compute. repeat split. }
    assert (Htrue : is_valid r = true).
    { pose proof (validate_fetch_ok SearchAgent_init w "https://example.org/long"
                    {| status_code := 200; content := "long" |}
                    {| find_all_a := []; soup_text := text_long |}
                    eq_refl eq_refl) as Hrun'.
      destruct (Returned_inj _ _ _ _ (eq_trans (eq_sym Hrun) Hrun')) as [-> _].
      vm_compute. reflexivity. }
    exists r. split; [exact Hrun|]. split; [exact Htrue|].
    split; [exact (Hvalid Htrue) | exact Hone].
  - destruct (quality_score_range SearchAgent_init w "https://example.org/worst")
      as (r & Hrun & _ & _ & _ & Hok).
    specialize (Hok {| status_code := 200; content := "worst" |}
                    {| find_all_a := []; soup_text := text_worst |}
                    eq_refl eq_refl).
    cbv zeta in Hok. destruct Hok as [Hmin _].
    exists r. split; [exact Hrun|]. apply Hmin. vm_compute. repeat split.
  - destruct (quality_score_range SearchAgent_init w "https://example.org/nowhere")
      as (r & Hrun & _ & _ & Hfail & _).
    exists r. split; [exact Hrun|].
    apply (Hfail (Exc "name resolution failed")). reflexivity.
Defined.

(** ** The search strategies *)

Section Strategies.
Variable self : SearchAgent.
Variable author_name : string.

(** The candidate built from an anchor by each strategy. *)
Let ccel_work (l : Anchor) : Work :=
  {| title := str_strip (get_text l);
     url := ccel_base_url self +:+ href l;
     source := "ccel";
     author := author_name |}.

Let newadvent_work (l : Anchor) : Work :=
  {| title := str_strip (get_text l);
     url := newadvent_base_url self +:+ href l;
     source := "newadvent";
     author := author_name |}.

(** One round of the CCEL loop appends the candidate of the anchor when
    the three tests pass and leaves the list alone otherwise. *)
Lemma ccel_visit_spec (author_path : string) (works : list Work) (l : Anchor) :
  ccel_visit self author_name author_path works l =
    if decide (str_in "/ccel/" (href l) = true
               /\ href l <> author_path
               /\ str_strip (get_text l) <> "")
    then works ++ [ccel_work l] else works.
Proof.
  unfold ccel_visit. cbv zeta.
  destruct (str_in "/ccel/" (href l)) eqn:Hin.
  - rewrite (str_in_truthy "/ccel/" (href l)) by (done || discriminate).
    cbn [andb].
    destruct (String.eqb_spec (href l) author_path) as [Heq|Hne]; cbn [negb].
    + rewrite decide_False; [reflexivity | intros (_ & ? & _); done].
    + destruct (truthy (str_strip (get_text l))) eqn:Ht.
      * apply truthy_spec in Ht. rewrite decide_True; done.
      * rewrite decide_False; [reflexivity|].
        intros (_ & _ & Hs). apply truthy_spec in Hs. congruence.
  - rewrite andb_false_r. cbn [andb].
    rewrite decide_False; [reflexivity | intros (? & _); done].
Qed.

Lemma newadvent_visit_spec (works : list Work) (l : Anchor) :
  newadvent_visit self author_name works l =
    if decide (str_in (str_lower author_name) (str_lower (get_text l)) = true
               /\ str_in "/fathers/" (href l) = true)
    then works ++ [newadvent_work l] else works.
Proof.
  unfold newadvent_visit. cbv zeta.
  destruct (str_in (str_lower author_name) _) eqn:Hname.
  - destruct (str_in "/fathers/" (href l)) eqn:Hin.
    + rewrite (str_in_truthy "/fathers/" (href l)) by (done || discriminate).
      rewrite decide_True; done.
    + rewrite andb_false_r.
      rewrite decide_False; [reflexivity | intros (_ & ?); done].
  - rewrite decide_False; [reflexivity | intros (? & _); done].
Qed.

(** A loop that appends at most one entry per anchor yields the entries
    of the anchors that pass, in the order of the anchors. *)
Lemma fold_visit (visit : list Work -> Anchor -> list Work)
    (P : Anchor -> Prop) `{!forall l, Decision (P l)} (mk : Anchor -> Work) :
  (forall works l, visit works l = if decide (P l) then works ++ [mk l] else works) ->
  forall links works,
    fold_left visit links works = works ++ (mk <$> filter P links).
Proof.
  intros Hvisit links. induction links as [|l links IH]; intros works.
  - cbn. now rewrite app_nil_r.
  - cbn [fold_left]. rewrite IH, Hvisit, filter_cons.
    destruct (decide (P l)); [|reflexivity].
    rewrite fmap_cons, <- app_assoc. reflexivity.
Qed.

Lemma ccel_loop (author_path : string) (links : list Anchor) :
  fold_left (ccel_visit self author_name author_path) links [] =
    ccel_work <$> filter (fun l => str_in "/ccel/" (href l) = true
                                   /\ href l <> author_path
                                   /\ str_strip (get_text l) <> "") links.
Proof.
  rewrite (fold_visit _ _ ccel_work (ccel_visit_spec author_path)).
  reflexivity.
Qed.

Lemma newadvent_loop (links : list Anchor) :
  fold_left (newadvent_visit self author_name) links [] =
    newadvent_work <$>
      filter (fun l => str_in (str_lower author_name) (str_lower (get_text l)) = true
                       /\ str_in "/fathers/" (href l) = true) links.
Proof.
  rewrite (fold_visit _ _ newadvent_work newadvent_visit_spec).
  reflexivity.
Qed.

Variable w : World.

(** The runs of [_search_ccel], case by case. *)
Lemma search_ccel_unknown :
  ccel_authors self !! author_name = None ->
  _search_ccel self author_name w = (Returned [], []).
Proof. intros H. unfold _search_ccel. rewrite H. reflexivity. Qed.

Lemma search_ccel_empty_path :
  ccel_authors self !! author_name = Some "" ->
  _search_ccel self author_name w = (Returned [], []).
Proof. intros H. unfold _search_ccel. rewrite H. reflexivity. Qed.

Lemma search_ccel_fetch_raises (author_path : string) (e : Exception) :
  ccel_authors self !! author_name = Some author_path ->
  author_path <> "" ->
  http_get w (ccel_base_url self +:+ author_path) = inl e ->
  _search_ccel self author_name w =
    (Returned [],
     [EvGet (ccel_base_url self +:+ author_path);
      EvPrint ("Error searching CCEL for " +:+ author_name +:+ ": " +:+ exc_str e)]).
Proof.
  intros Hpath Hne Hget. apply truthy_spec in Hne.
  unfold _search_ccel. rewrite Hpath, Hne. cbn [negb].
  run_method. rewrite Hget. reflexivity.
Qed.

Lemma search_ccel_parse_raises (author_path : string) (resp : Response)
    (e : Exception) :
  ccel_authors self !! author_name = Some author_path ->
  author_path <> "" ->
  http_get w (ccel_base_url self +:+ author_path) = inr resp ->
  html_parser w (content resp) = inl e ->
  _search_ccel self author_name w =
    (Returned [],
     [EvGet (ccel_base_url self +:+ author_path);
      EvPrint ("Error searching CCEL for " +:+ author_name +:+ ": " +:+ exc_str e)]).
Proof.
  intros Hpath Hne Hget Hparse. apply truthy_spec in Hne.
  unfold _search_ccel. rewrite Hpath, Hne. cbn [negb].
  run_method.
  rewrite Hget, Hparse. reflexivity.
Qed.

Lemma search_ccel_ok (author_path : string) (resp : Response) (soup : Soup) :
  ccel_authors self !! author_name = Some author_path ->
  author_path <> "" ->
  http_get w (ccel_base_url self +:+ author_path) = inr resp ->
  html_parser w (content resp) = inr soup ->
  _search_ccel self author_name w =
    (Returned (ccel_work <$>
                 filter (fun l => str_in "/ccel/" (href l) = true
                                  /\ href l <> author_path
                                  /\ str_strip (get_text l) <> "")
                        (find_all_a soup)),
     [EvGet (ccel_base_url self +:+ author_path); EvSleep 1]).
Proof.
  intros Hpath Hne Hget Hparse. apply truthy_spec in Hne.
  unfold _search_ccel. rewrite Hpath, Hne. cbn [negb].
  run_method.
  rewrite Hget, Hparse. cbv zeta. rewrite ccel_loop. reflexivity.
Qed.

(** The runs of [_search_newadvent]. *)
Lemma search_newadvent_fetch_raises (e : Exception) :
  http_get w (newadvent_search_url self) = inl e ->
  _search_newadvent self author_name w =
    (Returned [],
     [EvGet (newadvent_search_url self);
      EvPrint ("Error searching New Advent for " +:+ author_name +:+ ": "
               +:+ exc_str e)]).
Proof.
  intros Hget. unfold _search_newadvent. run_method.
  rewrite Hget. reflexivity.
Qed.

Lemma search_newadvent_parse_raises (resp : Response) (e : Exception) :
  http_get w (newadvent_search_url self) = inr resp ->
  html_parser w (content resp) = inl e ->
  _search_newadvent self author_name w =
    (Returned [],
     [EvGet (newadvent_search_url self);
      EvPrint ("Error searching New Advent for " +:+ author_name +:+ ": "
               +:+ exc_str e)]).
Proof.
  intros Hget Hparse.
  unfold _search_newadvent. run_method.
  rewrite Hget, Hparse. reflexivity.
Qed.

Lemma search_newadvent_ok (resp : Response) (soup : Soup) :
  http_get w (newadvent_search_url self) = inr resp ->
  html_parser w (content resp) = inr soup ->
  _search_newadvent self author_name w =
    (Returned (newadvent_work <$>
                 filter (fun l => str_in (str_lower author_name)
                                    (str_lower (get_text l)) = true
                                  /\ str_in "/fathers/" (href l) = true)
                        (find_all_a soup)),
     [EvGet (newadvent_search_url self); EvSleep 1]).
Proof.
  intros Hget Hparse.
  unfold _search_newadvent. run_method.
  rewrite Hget, Hparse. cbv zeta. rewrite newadvent_loop. reflexivity.
Qed.

(** Neither strategy raises, whatever the network and the parser do; the
    first effect of a strategy that fetches is its request. *)
Lemma search_ccel_returns :
  exists works t, _search_ccel self author_name w = (Returned works, t).
Proof.
  destruct (ccel_authors self !! author_name) as [path|] eqn:Hpath;
    [|eauto using search_ccel_unknown].
  destruct (decide (path = "")) as [->|Hne];
    [eauto using search_ccel_empty_path|].
  destruct (http_get w (ccel_base_url self +:+ path)) as [e|resp] eqn:Hget;
    [eauto using search_ccel_fetch_raises|].
  destruct (html_parser w (content resp)) as [e|soup] eqn:Hparse;
    [eauto using search_ccel_parse_raises | eauto using search_ccel_ok].
Qed.

Lemma search_newadvent_returns :
  exists works t,
    _search_newadvent self author_name w
      = (Returned works, EvGet (newadvent_search_url self) :: t).
Proof.
  destruct (http_get w (newadvent_search_url self)) as [e|resp] eqn:Hget;
    [eauto using search_newadvent_fetch_raises|].
  destruct (html_parser w (content resp)) as [e|soup] eqn:Hparse;
    [eauto using search_newadvent_parse_raises | eauto using search_newadvent_ok].
Qed.

(** The aggregator is the CCEL strategy followed by the New Advent
    strategy: the guard on the author table skips a call that would
    return the empty list without any effect. *)
Lemma find_works_unfold :
  find_works_by_author self author_name w =
    bind (_search_ccel self author_name)
         (fun ccel_works =>
            bind (_search_newadvent self author_name)
                 (fun newadvent_works => ret (ccel_works ++ newadvent_works))) w.
Proof.
  unfold find_works_by_author. cbv zeta.
  destruct (ccel_authors self !! author_name) as [path|] eqn:Hpath.
  - rewrite bool_decide_true by eauto. unfold bind, ret.
    destruct (_search_ccel self author_name w) as [[c|e] t]; [|reflexivity].
    cbn. destruct (_search_newadvent self author_name w) as [[n|e] t'];
      now rewrite ?app_nil_r.
  - rewrite bool_decide_false by (intros [? ?]; done). unfold bind, ret.
    rewrite search_ccel_unknown by done. cbn.
    destruct (_search_newadvent self author_name w) as [[n|e] t'];
      reflexivity.
Qed.

Lemma find_works_run (c n : list Work) (tc tn : list Event) :
  _search_ccel self author_name w = (Returned c, tc) ->
  _search_newadvent self author_name w = (Returned n, tn) ->
  find_works_by_author self author_name w = (Returned (c ++ n), tc ++ tn).
Proof.
  intros Hc Hn. rewrite find_works_unfold. unfold bind, ret.
  rewrite Hc, Hn. now rewrite app_nil_r.
Qed.

End Strategies.

(** C4. For an author the CCEL table does not list, the CCEL strategy
    returns the empty list without raising and without any effect: no
    request is sent, nothing is printed. The aggregator then does what the
    New Advent strategy does alone. *)
Theorem unlisted_author_ccel_empty (self : SearchAgent) (w : World)
    (author_name : string) :
  ccel_authors self !! author_name = None ->
  _search_ccel self author_name w = (Returned [], [])
  /\ find_works_by_author self author_name w = _search_newadvent self author_name w.
Proof.
  intros Hnone. split; [now apply search_ccel_unknown|].
  rewrite find_works_unfold. unfold bind, ret.
  rewrite search_ccel_unknown by done. cbn.
  destruct (_search_newadvent self author_name w) as [[n|e] t];
    now rewrite ?app_nil_r.
Qed.

Lemma unlisted_author_ccel_empty_witness :
  _search_ccel SearchAgent_init "Origen" (sample_world Up Up)
    = (Returned [], [])
  /\ find_works_by_author SearchAgent_init "Origen" (sample_world Up Up)
     = _search_newadvent SearchAgent_init "Origen" (sample_world Up Up).
Proof.
  apply (unlisted_author_ccel_empty SearchAgent_init (sample_world Up Up)
           "Origen").
  vm_compute. reflexivity.
Defined.

(** C7. After a successful fetch of the author's CCEL listing, an anchor
    contributes a candidate exactly when its href contains ["/ccel/"],
    differs from the author's own path, and its text is not empty once
    stripped; the candidate has the stripped text as title, the base URL
    followed by the href as url, ["ccel"] as source and the author asked for.
    The works returned are these candidates, one per accepted anchor, in the
    order of the anchors; the link of the listing to itself is never among
    them. *)
Theorem ccel_emits_exactly (self : SearchAgent) (w : World)
    (author_name author_path : string) (resp : Response) (soup : Soup) :
  ccel_authors self !! author_name = Some author_path ->
  author_path <> "" ->
  http_get w (ccel_base_url self +:+ author_path) = inr resp ->
  html_parser w (content resp) = inr soup ->
  let candidate (l : Anchor) :=
    {| title := str_strip (get_text l);
       url := ccel_base_url self +:+ href l;
       source := "ccel";
       author := author_name |} in
  exists works,
    _search_ccel self author_name w =
      (Returned works, [EvGet (ccel_base_url self +:+ author_path); EvSleep 1])
    /\ works = candidate <$>
                 filter (fun l => str_in "/ccel/" (href l) = true
                                  /\ href l <> author_path
                                  /\ str_strip (get_text l) <> "")
                        (find_all_a soup)
    /\ (forall wk,
          wk ∈ works <->
          exists l, l ∈ find_all_a soup
                    /\ str_in "/ccel/" (href l) = true
                    /\ href l <> author_path
                    /\ str_strip (get_text l) <> ""
                    /\ wk = candidate l)
    /\ (forall acc l,
          (str_in "/ccel/" (href l) = true
           /\ href l <> author_path
           /\ str_strip (get_text l) <> "" ->
           ccel_visit self author_name author_path acc l = acc ++ [candidate l])
          /\ (~ (str_in "/ccel/" (href l) = true
                 /\ href l <> author_path
                 /\ str_strip (get_text l) <> "") ->
              ccel_visit self author_name author_path acc l = acc))
    /\ (forall wk, wk ∈ works -> url wk <> ccel_base_url self +:+ author_path).
Proof.
  intros Hpath Hne Hget Hparse candidate.
  eexists. split; [eapply search_ccel_ok; eauto|].
  split; [reflexivity|].
  assert (Hin : forall wk,
    wk ∈ candidate <$>
           filter (fun l => str_in "/ccel/" (href l) = true
                            /\ href l <> author_path
                            /\ str_strip (get_text l) <> "")
                  (find_all_a soup) <->
    exists l, l ∈ find_all_a soup
              /\ str_in "/ccel/" (href l) = true
              /\ href l <> author_path
              /\ str_strip (get_text l) <> ""
              /\ wk = candidate l).
  { intros wk. rewrite list_elem_of_fmap. split.
    - intros (l & -> & Hl). apply list_elem_of_filter in Hl as [(? & ? & ?) ?].
      exists l. done.
    - intros (l & Hl & H1 & H2 & H3 & ->). exists l. split; [done|].
      apply list_elem_of_filter. done. }
  split; [exact Hin|]. split.
  - intros acc l. rewrite ccel_visit_spec. split; intros Hl.
    + rewrite decide_True by done. reflexivity.
    + rewrite decide_False by done. reflexivity.
  - intros wk Hwk. apply Hin in Hwk as (l & _ & _ & Hhref & _ & ->).
    cbn [url candidate]. intros Heq. apply Hhref.
    exact (String.app_inj _ _ _ Heq).
Qed.

Lemma ccel_emits_exactly_witness :
  _search_ccel SearchAgent_init "St Augustine" (sample_world Up Up) =
    (Returned
       [ {| title := "Confessions";
            url := "https://www.ccel.org/ccel/augustine/confessions";
            source := "ccel"; author := "St Augustine" |};
         {| title := "City of God";
            url := "https://www.ccel.org/ccel/augustine/city";
            source := "ccel"; author := "St Augustine" |};
         {| title := "On Christian Doctrine";
            url := "https://www.ccel.org/ccel/augustine/doctrine";
            source := "ccel"; author := "St Augustine" |} ],
     [EvGet "https://www.ccel.org/ccel/augustine"; EvSleep 1])
  /\ ccel_visit SearchAgent_init "St Augustine" "/ccel/augustine" []
       {| get_text := "  Confessions "; href := "/ccel/augustine/confessions" |}
     = [ {| title := "Confessions";
            url := "https://www.ccel.org/ccel/augustine/confessions";
            source := "ccel"; author := "St Augustine" |} ]
  /\ ccel_visit SearchAgent_init "St Augustine" "/ccel/augustine" []
       {| get_text := "St Augustine"; href := "/ccel/augustine" |}
     = [].
Proof.
  destruct (ccel_emits_exactly SearchAgent_init (sample_world Up Up)
              "St Augustine" "/ccel/augustine"
              {| status_code := 200; content := "ccel-augustine" |}
              {| find_all_a := ccel_anchors; soup_text := "Works of St Augustine" |})
    as (works & Hrun & Hworks & _ & Hvisit & _).
  - vm_compute. reflexivity.
  - discriminate.
  - reflexivity.
  - reflexivity.
  - split; [rewrite Hrun, Hworks; vm_compute; reflexivity|]. split.
    + apply (Hvisit [] {| get_text := "  Confessions ";
                          href := "/ccel/augustine/confessions" |}).
      split; [reflexivity|]. split; discriminate.
    + apply (Hvisit [] {| get_text := "St Augustine"; href := "/ccel/augustine" |}).
      intros (_ & Hne & _). apply Hne. reflexivity.
Defined.

(** C8. After a successful fetch of the New Advent listing, an anchor
    contributes a candidate exactly when the lowered author name occurs in
    the lowered text of the anchor and its href contains ["/fathers/"]; the
    candidate has the stripped text as title, the base URL followed by the
    href as url, ["newadvent"] as source and the author asked for. The
    works returned are these candidates, one per accepted anchor, in the
    order of the anchors. *)
Theorem newadvent_emits_exactly (self : SearchAgent) (w : World)
    (author_name : string) (resp : Response) (soup : Soup) :
  http_get w (newadvent_search_url self) = inr resp ->
  html_parser w (content resp) = inr soup ->
  let candidate (l : Anchor) :=
    {| title := str_strip (get_text l);
       url := newadvent_base_url self +:+ href l;
       source := "newadvent";
       author := author_name |} in
  exists works,
    _search_newadvent self author_name w =
      (Returned works, [EvGet (newadvent_search_url self); EvSleep 1])
    /\ works = candidate <$>
                 filter (fun l => str_in (str_lower author_name)
                                    (str_lower (get_text l)) = true
                                  /\ str_in "/fathers/" (href l) = true)
                        (find_all_a soup)
    /\ (forall wk,
          wk ∈ works <->
          exists l, l ∈ find_all_a soup
                    /\ str_in (str_lower author_name) (str_lower (get_text l)) = true
                    /\ str_in "/fathers/" (href l) = true
                    /\ wk = candidate l)
    /\ (forall acc l,
          (str_in (str_lower author_name) (str_lower (get_text l)) = true
           /\ str_in "/fathers/" (href l) = true ->
           newadvent_visit self author_name acc l = acc ++ [candidate l])
          /\ (~ (str_in (str_lower author_name) (str_lower (get_text l)) = true
                 /\ str_in "/fathers/" (href l) = true) ->
              newadvent_visit self author_name acc l = acc)).
Proof.
  intros Hget Hparse candidate.
  eexists. split; [eapply search_newadvent_ok; eauto|].
  split; [reflexivity|]. split.
  - intros wk. rewrite list_elem_of_fmap. split.
    + intros (l & -> & Hl). apply list_elem_of_filter in Hl as [(? & ?) ?].
      exists l. done.
    + intros (l & Hl & H1 & H2 & ->). exists l. split; [done|].
      apply list_elem_of_filter. done.
  - intros acc l. rewrite newadvent_visit_spec. split; intros Hl.
    + rewrite decide_True by done. reflexivity.
    + rewrite decide_False by done. reflexivity.
Qed.

Lemma newadvent_emits_exactly_witness :
  _search_newadvent SearchAgent_init "St Augustine" (sample_world Up Up) =
    (Returned
       [ {| title := "Confessions (ST AUGUSTINE)";
            url := "https://www.newadvent.org/fathers/1101.htm";
            source := "newadvent"; author := "St Augustine" |};
         {| title := "Letters of st augustine";
            url := "https://www.newadvent.org/fathers/1102.htm";
            source := "newadvent"; author := "St Augustine" |};
         {| title := "City of God - St Augustine";
            url := "https://www.newadvent.org/fathers/1201.htm";
            source := "newadvent"; author := "St Augustine" |} ],
     [EvGet "https://www.newadvent.org/fathers"; EvSleep 1])
  /\ newadvent_visit SearchAgent_init "St Augustine" []
       {| get_text := " Letters of st augustine "; href := "/fathers/1102.htm" |}
     = [ {| title := "Letters of st augustine";
            url := "https://www.newadvent.org/fathers/1102.htm";
            source := "newadvent"; author := "St Augustine" |} ]
  /\ newadvent_visit SearchAgent_init "St Augustine" []
       {| get_text := "St Augustine of Hippo"; href := "/cathen/02084a.htm" |}
     = [].
Proof.
  destruct (newadvent_emits_exactly SearchAgent_init (sample_world Up Up)
              "St Augustine"
              {| status_code := 200; content := "newadvent-fathers" |}
              {| find_all_a := newadvent_anchors;
                 soup_text := "The Fathers of the Church" |})
    as (works & Hrun & Hworks & _ & Hvisit).
  - reflexivity.
  - reflexivity.
  - split; [rewrite Hrun, Hworks; vm_compute; reflexivity|]. split.
    + apply (Hvisit [] {| get_text := " Letters of st augustine ";
                          href := "/fathers/1102.htm" |}).
      split; reflexivity.
    + apply (Hvisit [] {| get_text := "St Augustine of Hippo";
                          href := "/cathen/02084a.htm" |}).
      intros (_ & Hmark). discriminate Hmark.
Defined.

(** ** What a returned list of works tells about the run *)

Lemma search_ccel_inv (self : SearchAgent) (author_name : string) (w : World)
    (c : list Work) (tc : list Event) :
  _search_ccel self author_name w = (Returned c, tc) ->
  c = []
  \/ exists author_path resp soup,
       ccel_authors self !! author_name = Some author_path
       /\ author_path <> ""
       /\ http_get w (ccel_base_url self +:+ author_path) = inr resp
       /\ html_parser w (content resp) = inr soup
       /\ c = (fun l => {| title := str_strip (get_text l);
                           url := ccel_base_url self +:+ href l;
                           source := "ccel";
                           author := author_name |})
              <$> filter (fun l => str_in "/ccel/" (href l) = true
                                   /\ href l <> author_path
                                   /\ str_strip (get_text l) <> "")
                         (find_all_a soup).
Proof.
  intros Hrun.
  destruct (ccel_authors self !! author_name) as [path|] eqn:Hpath.
  2: { rewrite search_ccel_unknown in Hrun by done.
       apply Returned_inj in Hrun as [<- _]. now left. }
  destruct (decide (path = "")) as [->|Hne].
  { rewrite search_ccel_empty_path in Hrun by done.
    apply Returned_inj in Hrun as [<- _]. now left. }
  destruct (http_get w (ccel_base_url self +:+ path)) as [e|resp] eqn:Hget.
  { rewrite (search_ccel_fetch_raises _ _ _ _ _ Hpath Hne Hget) in Hrun.
    apply Returned_inj in Hrun as [<- _]. now left. }
  destruct (html_parser w (content resp)) as [e|soup] eqn:Hparse.
  { rewrite (search_ccel_parse_raises _ _ _ _ _ _ Hpath Hne Hget Hparse) in Hrun.
    apply Returned_inj in Hrun as [<- _]. now left. }
  rewrite (search_ccel_ok _ _ _ _ _ _ Hpath Hne Hget Hparse) in Hrun.
  apply Returned_inj in Hrun as [<- _]. right. exists path, resp, soup. done.
Qed.

Lemma search_newadvent_inv (self : SearchAgent) (author_name : string) (w : World)
    (n : list Work) (tn : list Event) :
  _search_newadvent self author_name w = (Returned n, tn) ->
  n = []
  \/ exists resp soup,
       http_get w (newadvent_search_url self) = inr resp
       /\ html_parser w (content resp) = inr soup
       /\ n = (fun l => {| title := str_strip (get_text l);
                           url := newadvent_base_url self +:+ href l;
                           source := "newadvent";
                           author := author_name |})
              <$> filter (fun l => str_in (str_lower author_name)
                                     (str_lower (get_text l)) = true
                                   /\ str_in "/fathers/" (href l) = true)
                         (find_all_a soup).
Proof.
  intros Hrun.
  destruct (http_get w (newadvent_search_url self)) as [e|resp] eqn:Hget.
  { rewrite (search_newadvent_fetch_raises _ _ _ _ Hget) in Hrun.
    apply Returned_inj in Hrun as [<- _]. now left. }
  destruct (html_parser w (content resp)) as [e|soup] eqn:Hparse.
  { rewrite (search_newadvent_parse_raises _ _ _ _ _ Hget Hparse) in Hrun.
    apply Returned_inj in Hrun as [<- _]. now left. }
  rewrite (search_newadvent_ok _ _ _ _ _ Hget Hparse) in Hrun.
  apply Returned_inj in Hrun as [<- _]. right. exists resp, soup. done.
Qed.

Lemma str_startswith_app (p s x : string) :
  str_startswith p s = true -> str_startswith p (s +:+ x) = true.
Proof.
  rewrite !str_startswith_spec. intros [r ->]. exists (r +:+ x).
  apply str_app_assoc.
Qed.

Lemma is_absolute_url_app (base x : string) :
  is_absolute_url base = true -> is_absolute_url (base +:+ x) = true.
Proof.
  unfold is_absolute_url. rewrite !orb_true_iff.
  intros [H|H]; [left | right]; now apply str_startswith_app.
Qed.

(** C9. Every candidate either strategy returns has for url the base URL
    of its source followed by the href of an anchor of the page that was
    fetched, whatever the href is (a path relative to the site too); with an
    absolute base URL, as the two of the agent are, the url is absolute. *)
Theorem candidate_url_is_base_plus_href (self : SearchAgent) (w : World)
    (author_name : string) :
  (forall works t wk,
     _search_ccel self author_name w = (Returned works, t) ->
     wk ∈ works ->
     (exists author_path resp soup l,
        ccel_authors self !! author_name = Some author_path
        /\ http_get w (ccel_base_url self +:+ author_path) = inr resp
        /\ html_parser w (content resp) = inr soup
        /\ l ∈ find_all_a soup
        /\ url wk = ccel_base_url self +:+ href l)
     /\ (is_absolute_url (ccel_base_url self) = true ->
         is_absolute_url (url wk) = true))
  /\ (forall works t wk,
        _search_newadvent self author_name w = (Returned works, t) ->
        wk ∈ works ->
        (exists resp soup l,
           http_get w (newadvent_search_url self) = inr resp
           /\ html_parser w (content resp) = inr soup
           /\ l ∈ find_all_a soup
           /\ url wk = newadvent_base_url self +:+ href l)
        /\ (is_absolute_url (newadvent_base_url self) = true ->
            is_absolute_url (url wk) = true)).
Proof.
  split; intros works t wk Hrun Hwk.
  - apply search_ccel_inv in Hrun
      as [-> | (path & resp & soup & Hpath & _ & Hget & Hparse & ->)].
    { now apply elem_of_nil in Hwk. }
    apply list_elem_of_fmap in Hwk as (l & -> & Hl).
    apply list_elem_of_filter in Hl as [_ Hl]. cbn [url]. split.
    + exists path, resp, soup, l. done.
    + apply is_absolute_url_app.
  - apply search_newadvent_inv in Hrun
      as [-> | (resp & soup & Hget & Hparse & ->)].
    { now apply elem_of_nil in Hwk. }
    apply list_elem_of_fmap in Hwk as (l & -> & Hl).
    apply list_elem_of_filter in Hl as [_ Hl]. cbn [url]. split.
    + exists resp, soup, l. done.
    + apply is_absolute_url_app.
Qed.

Lemma candidate_url_is_base_plus_href_witness :
  let w := sample_world Up Up in
  ((exists author_path resp soup l,
      ccel_authors SearchAgent_init !! "St Augustine" = Some author_path
      /\ http_get w ("https://www.ccel.org" +:+ author_path) = inr resp
      /\ html_parser w (content resp) = inr soup
      /\ l ∈ find_all_a soup
      /\ "https://www.ccel.org/ccel/augustine/city"
         = "https://www.ccel.org" +:+ href l)
   /\ is_absolute_url "https://www.ccel.org/ccel/augustine/city" = true)
  /\ ((exists resp soup l,
         http_get w "https://www.newadvent.org/fathers" = inr resp
         /\ html_parser w (content resp) = inr soup
         /\ l ∈ find_all_a soup
         /\ "https://www.newadvent.org/fathers/1102.htm"
            = "https://www.newadvent.org" +:+ href l)
      /\ is_absolute_url "https://www.newadvent.org/fathers/1102.htm" = true).
Proof.
  intros w.
  destruct (candidate_url_is_base_plus_href SearchAgent_init w "St Augustine")
    as [Hccel Hnewadvent].
  split.
  - destruct (Hccel
                [ {| title := "Confessions";
                     url := "https://www.ccel.org/ccel/augustine/confessions";
                     source := "ccel"; author := "St Augustine" |};
                  {| title := "City of God";
                     url := "https://www.ccel.org/ccel/augustine/city";
                     source := "ccel"; author := "St Augustine" |};
                  {| title := "On Christian Doctrine";
                     url := "https://www.ccel.org/ccel/augustine/doctrine";
                     source := "ccel"; author := "St Augustine" |} ]
                [EvGet "https://www.ccel.org/ccel/augustine"; EvSleep 1]
                {| title := "City of God";
                   url := "https://www.ccel.org/ccel/augustine/city";
                   source := "ccel"; author := "St Augustine" |})
      as [Hhref Habs].
    + vm_compute. reflexivity.
    + apply list_elem_of_further, list_elem_of_here.
    + split; [exact Hhref | apply Habs; reflexivity].
  - destruct (Hnewadvent
                [ {| title := "Confessions (ST AUGUSTINE)";
                     url := "https://www.newadvent.org/fathers/1101.htm";
                     source := "newadvent"; author := "St Augustine" |};
                  {| title := "Letters of st augustine";
                     url := "https://www.newadvent.org/fathers/1102.htm";
                     source := "newadvent"; author := "St Augustine" |};
                  {| title := "City of God - St Augustine";
                     url := "https://www.newadvent.org/fathers/1201.htm";
                     source := "newadvent"; author := "St Augustine" |} ]
                [EvGet "https://www.newadvent.org/fathers"; EvSleep 1]
                {| title := "Letters of st augustine";
                   url := "https://www.newadvent.org/fathers/1102.htm";
                   source := "newadvent"; author := "St Augustine" |})
      as [Hhref Habs].
    + vm_compute. reflexivity.
    + apply list_elem_of_further, list_elem_of_here.
    + split; [exact Hhref | apply Habs; reflexivity].
Defined.

(** C5. The aggregator runs the CCEL strategy and then the New Advent
    strategy, and returns the works of the first followed by the works of
    the second, nothing removed and nothing moved; the effects come in the
    same order. The works of CCEL carry the source ["ccel"], those of New
    Advent ["newadvent"], and after a successful fetch each strategy's works
    are the candidates of the accepted anchors in the order of the anchors
    on the page. *)
Theorem works_concatenated_in_order (self : SearchAgent) (w : World)
    (author_name : string) :
  exists c n tc tn,
    _search_ccel self author_name w = (Returned c, tc)
    /\ _search_newadvent self author_name w = (Returned n, tn)
    /\ find_works_by_author self author_name w = (Returned (c ++ n), tc ++ tn)
    /\ Forall (fun wk => source wk = "ccel") c
    /\ Forall (fun wk => source wk = "newadvent") n
    /\ (forall author_path resp soup,
          ccel_authors self !! author_name = Some author_path ->
          author_path <> "" ->
          http_get w (ccel_base_url self +:+ author_path) = inr resp ->
          html_parser w (content resp) = inr soup ->
          c = (fun l => {| title := str_strip (get_text l);
                           url := ccel_base_url self +:+ href l;
                           source := "ccel";
                           author := author_name |})
              <$> filter (fun l => str_in "/ccel/" (href l) = true
                                   /\ href l <> author_path
                                   /\ str_strip (get_text l) <> "")
                         (find_all_a soup))
    /\ (forall resp soup,
          http_get w (newadvent_search_url self) = inr resp ->
          html_parser w (content resp) = inr soup ->
          n = (fun l => {| title := str_strip (get_text l);
                           url := newadvent_base_url self +:+ href l;
                           source := "newadvent";
                           author := author_name |})
              <$> filter (fun l => str_in (str_lower author_name)
                                     (str_lower (get_text l)) = true
                                   /\ str_in "/fathers/" (href l) = true)
                         (find_all_a soup)).
Proof.
  destruct (search_ccel_returns self author_name w) as (c & tc & Hc).
  destruct (search_newadvent_returns self author_name w) as (n & tn & Hn).
  exists c, n, tc, (EvGet (newadvent_search_url self) :: tn).
  split; [exact Hc|]. split; [exact Hn|].
  split; [now apply find_works_run|].
  split; [|split; [|split]].
  - destruct (search_ccel_inv _ _ _ _ _ Hc) as [-> | (? & ? & ? & _ & _ & _ & _ & ->)];
      [constructor|].
    apply Forall_fmap, Forall_forall. reflexivity.
  - destruct (search_newadvent_inv _ _ _ _ _ Hn) as [-> | (? & ? & _ & _ & ->)];
      [constructor|].
    apply Forall_fmap, Forall_forall. reflexivity.
  - intros path resp soup Hpath Hne Hget Hparse.
    rewrite (search_ccel_ok _ _ _ _ _ _ Hpath Hne Hget Hparse) in Hc.
    now apply Returned_inj in Hc as [<- _].
  - intros resp soup Hget Hparse.
    rewrite (search_newadvent_ok _ _ _ _ _ Hget Hparse) in Hn.
    now apply Returned_inj in Hn as [<- _].
Qed.

Lemma works_concatenated_in_order_witness :
  find_works_by_author SearchAgent_init "St Augustine" (sample_world Up Up) =
    (Returned
       [ {| title := "Confessions";
            url := "https://www.ccel.org/ccel/augustine/confessions";
            source := "ccel"; author := "St Augustine" |};
         {| title := "City of God";
            url := "https://www.ccel.org/ccel/augustine/city";
            source := "ccel"; author := "St Augustine" |};
         {| title := "On Christian Doctrine";
            url := "https://www.ccel.org/ccel/augustine/doctrine";
            source := "ccel"; author := "St Augustine" |};
         {| title := "Confessions (ST AUGUSTINE)";
            url := "https://www.newadvent.org/fathers/1101.htm";
            source := "newadvent"; author := "St Augustine" |};
         {| title := "Letters of st augustine";
            url := "https://www.newadvent.org/fathers/1102.htm";
            source := "newadvent"; author := "St Augustine" |};
         {| title := "City of God - St Augustine";
            url := "https://www.newadvent.org/fathers/1201.htm";
            source := "newadvent"; author := "St Augustine" |} ],
     [EvGet "https://www.ccel.org/ccel/augustine"; EvSleep 1;
      EvGet "https://www.newadvent.org/fathers"; EvSleep 1]).
Proof.
  destruct (works_concatenated_in_order SearchAgent_init (sample_world Up Up)
              "St Augustine")
    as (c & n & tc & tn & Hc & Hn & Hall & _ & _ & Hccel & Hnewadvent).
  assert (Ec := Hccel "/ccel/augustine"
                  {| status_code := 200; content := "ccel-augustine" |}
                  {| find_all_a := ccel_anchors; soup_text := "Works of St Augustine" |}
                  ltac:(vm_compute; reflexivity) ltac:(discriminate)
                  eq_refl eq_refl).
  assert (En := Hnewadvent
                  {| status_code := 200; content := "newadvent-fathers" |}
                  {| find_all_a := newadvent_anchors;
                     soup_text := "The Fathers of the Church" |}
                  eq_refl eq_refl).
  vm_compute in Hc. apply Returned_inj in Hc as [_ <-].
  vm_compute in Hn. apply Returned_inj in Hn as [_ <-].
  rewrite Hall, Ec, En. vm_compute. reflexivity.
Defined.

(** C6. Whatever the network and the parser do, neither strategy raises
    and the aggregator returns a list. An exception inside a strategy, at
    the fetch or after it (the parser), is caught there: the strategy
    prints a line and contributes no works, and the other strategy runs all
    the same, its request is sent and its works are returned. So when the
    fetch of one source raises and the other source yields three
    candidates, the aggregator returns three works. *)
Theorem strategy_failures_are_contained (self : SearchAgent) (w : World)
    (author_name : string) :
  exists c n tc tn,
    _search_ccel self author_name w = (Returned c, tc)
    /\ _search_newadvent self author_name w
       = (Returned n, EvGet (newadvent_search_url self) :: tn)
    /\ find_works_by_author self author_name w
       = (Returned (c ++ n), tc ++ EvGet (newadvent_search_url self) :: tn)
    /\ (forall author_path e,
          ccel_authors self !! author_name = Some author_path ->
          author_path <> "" ->
          http_get w (ccel_base_url self +:+ author_path) = inl e
          \/ (exists resp,
                http_get w (ccel_base_url self +:+ author_path) = inr resp
                /\ html_parser w (content resp) = inl e) ->
          c = []
          /\ tc = [EvGet (ccel_base_url self +:+ author_path);
                   EvPrint ("Error searching CCEL for " +:+ author_name +:+ ": "
                            +:+ exc_str e)]
          /\ (length n = 3%nat -> length (c ++ n) = 3%nat))
    /\ (forall e,
          http_get w (newadvent_search_url self) = inl e
          \/ (exists resp,
                http_get w (newadvent_search_url self) = inr resp
                /\ html_parser w (content resp) = inl e) ->
          n = []
          /\ tn = [EvPrint ("Error searching New Advent for " +:+ author_name
                            +:+ ": " +:+ exc_str e)]
          /\ (length c = 3%nat -> length (c ++ n) = 3%nat)).
Proof.
  destruct (search_ccel_returns self author_name w) as (c & tc & Hc).
  destruct (search_newadvent_returns self author_name w) as (n & tn & Hn).
  exists c, n, tc, tn.
  split; [exact Hc|]. split; [exact Hn|].
  split; [now apply find_works_run|]. split.
  - intros path e Hpath Hne Hfail.
    assert (Hrun : _search_ccel self author_name w =
              (Returned [],
               [EvGet (ccel_base_url self +:+ path);
                EvPrint ("Error searching CCEL for " +:+ author_name +:+ ": "
                         +:+ exc_str e)])).
    { destruct Hfail as [Hget | (resp & Hget & Hparse)].
      - now apply search_ccel_fetch_raises.
      - now apply search_ccel_parse_raises with (resp := resp). }
    rewrite Hrun in Hc. apply Returned_inj in Hc as [<- <-]. done.
  - intros e Hfail.
    assert (Hrun : _search_newadvent self author_name w =
              (Returned [],
               [EvGet (newadvent_search_url self);
                EvPrint ("Error searching New Advent for " +:+ author_name
                         +:+ ": " +:+ exc_str e)])).
    { destruct Hfail as [Hget | (resp & Hget & Hparse)].
      - now apply search_newadvent_fetch_raises.
      - now apply search_newadvent_parse_raises with (resp := resp). }
    rewrite Hrun in Hn. apply Returned_inj in Hn as [<- Htn].
    injection Htn as <-. rewrite app_nil_r. done.
Qed.

Lemma strategy_failures_are_contained_witness :
  (exists works t,
     find_works_by_author SearchAgent_init "St Augustine" (sample_world Down Up)
       = (Returned works, t)
     /\ length works = 3%nat
     /\ EvPrint "Error searching CCEL for St Augustine: ccel: connection refused" ∈ t
     /\ EvGet "https://www.newadvent.org/fathers" ∈ t)
  /\ (exists works t,
        find_works_by_author SearchAgent_init "St Augustine" (sample_world Garbled Up)
          = (Returned works, t)
        /\ length works = 3%nat
        /\ EvPrint "Error searching CCEL for St Augustine: markup rejected" ∈ t
        /\ EvGet "https://www.newadvent.org/fathers" ∈ t)
  /\ (exists works t,
        find_works_by_author SearchAgent_init "St Augustine" (sample_world Up Down)
          = (Returned works, t)
        /\ length works = 3%nat
        /\ EvPrint "Error searching New Advent for St Augustine: newadvent: timed out" ∈ t
        /\ EvGet "https://www.ccel.org/ccel/augustine" ∈ t).
Proof.
  split; [|split].
  - destruct (strategy_failures_are_contained SearchAgent_init
                (sample_world Down Up) "St Augustine")
      as (c & n & tc & tn & Hc & Hn & Hall & Hccel & _).
    destruct (Hccel "/ccel/augustine" (Exc "ccel: connection refused"))
      as (_ & -> & Hthree).
    + vm_compute. reflexivity.
    + discriminate.
    + left. reflexivity.
    + do 2 eexists. split; [exact Hall|]. split; [|split].
      * apply Hthree. vm_compute in Hn. now apply Returned_inj in Hn as [<- _].
      * apply elem_of_app. left. apply list_elem_of_further, list_elem_of_here.
      * apply elem_of_app. right. apply list_elem_of_here.
  - destruct (strategy_failures_are_contained SearchAgent_init
                (sample_world Garbled Up) "St Augustine")
      as (c & n & tc & tn & Hc & Hn & Hall & Hccel & _).
    destruct (Hccel "/ccel/augustine" (Exc "markup rejected"))
      as (_ & -> & Hthree).
    + vm_compute. reflexivity.
    + discriminate.
    + right. exists {| status_code := 200; content := "garbled" |}.
      split; reflexivity.
    + do 2 eexists. split; [exact Hall|]. split; [|split].
      * apply Hthree. vm_compute in Hn. now apply Returned_inj in Hn as [<- _].
      * apply elem_of_app. left. apply list_elem_of_further, list_elem_of_here.
      * apply elem_of_app. right. apply list_elem_of_here.
  - destruct (strategy_failures_are_contained SearchAgent_init
                (sample_world Up Down) "St Augustine")
      as (c & n & tc & tn & Hc & Hn & Hall & _ & Hnewadvent).
    destruct (Hnewadvent (Exc "newadvent: timed out")) as (_ & -> & Hthree).
    + left. reflexivity.
    + do 2 eexists. split; [exact Hall|].
      vm_compute in Hc. apply Returned_inj in Hc as [<- <-].
      split; [now apply Hthree|]. split.
      * apply elem_of_app. right. apply list_elem_of_further, list_elem_of_here.
      * apply elem_of_app. left. apply list_elem_of_here.
Defined.

(** * Further properties of the agent *)

(** ** Reports of the assessor *)

(** X1. In every report the assessor returns, on either path, the page is
    valid exactly when no issue is recorded: the bonus for a long text never
    makes up for a penalty. *)
Theorem valid_iff_no_issues (self : SearchAgent) (w : World) (url : string) :
  exists r,
    validate_source_quality self url w = (Returned r, [EvGet url])
    /\ (is_valid r = true <-> issues r = []).
Proof.
  destruct (validate_cases self w url) as (r & Hrun & Hr).
  exists r. split; [exact Hrun|].
  destruct Hr as [[e ->] | (resp & soup & _ & _ & ->)].
  - cbn. split; discriminate.
  - rewrite quality_of_soup_sum. cbn [is_valid issues].
    repeat match goal with |- context [if ?b then _ else _] => destruct b end;
      cbn; split; (reflexivity || discriminate).
Qed.

Lemma valid_iff_no_issues_witness :
  exists r,
    validate_source_quality SearchAgent_init "https://example.org/long"
      (sample_world Up Up)
      = (Returned r, [EvGet "https://example.org/long"])
    /\ is_valid r = true
    /\ issues r = [].
Proof.
  destruct (valid_iff_no_issues SearchAgent_init (sample_world Up Up)
              "https://example.org/long") as (r & Hrun & Hiff).
  assert (Hvalid : is_valid r = true).
  { pose proof (validate_fetch_ok SearchAgent_init (sample_world Up Up)
                  "https://example.org/long"
                  {| status_code := 200; content := "long" |}
                  {| find_all_a := []; soup_text := text_long |}
                  eq_refl eq_refl) as Hrun'.
    destruct (Returned_inj _ _ _ _ (eq_trans (eq_sym Hrun) Hrun')) as [-> _].
    vm_compute. reflexivity. }
  exists r. split; [exact Hrun|]. split; [exact Hvalid|].
  apply Hiff, Hvalid.
Defined.

(** X2. On a successful fetch the issues are some of the three labels
    ["Very short text"], ["Page not found"], ["Error page"], each at most
    once and in this order. *)
Theorem success_issues_in_check_order (self : SearchAgent) (w : World)
    (url : string) (resp : Response) (soup : Soup) :
  http_get w url = inr resp ->
  html_parser w (content resp) = inr soup ->
  exists r,
    validate_source_quality self url w = (Returned r, [EvGet url])
    /\ sublist (issues r) ["Very short text"; "Page not found"; "Error page"]
    /\ NoDup (issues r).
Proof.
  intros Hget Hparse. eexists. split; [eapply validate_fetch_ok; eauto|].
  rewrite quality_of_soup_sum. cbn [issues].
  assert (Hsub : forall (a b c : bool),
    sublist ((if a then ["Very short text"] else [])
             ++ (if b then ["Page not found"] else [])
             ++ (if c then ["Error page"] else []))
            ["Very short text"; "Page not found"; "Error page"]).
  { intros [] [] []; cbn; repeat constructor. }
  split; [apply Hsub|].
  eapply sublist_NoDup; [|apply Hsub].
  apply (bool_decide_unpack _). vm_compute. exact I.
Qed.

Lemma success_issues_in_check_order_witness :
  exists r,
    validate_source_quality SearchAgent_init "https://example.org/worst"
      (sample_world Up Up)
      = (Returned r, [EvGet "https://example.org/worst"])
    /\ sublist (issues r) ["Very short text"; "Page not found"; "Error page"]
    /\ NoDup (issues r).
Proof.
  apply (success_issues_in_check_order SearchAgent_init (sample_world Up Up)
           "https://example.org/worst"
           {| status_code := 200; content := "worst" |}
           {| find_all_a := []; soup_text := text_worst |});
    reflexivity.
Defined.

(** X3. The score [-1] of the failure report is also the score of a page
    that was fetched: exactly of a text of more than 10000 words that
    contains ["error"] and not ["page not found"]. The word count tells the
    two apart. *)
Theorem score_minus_one_on_success (self : SearchAgent) (w : World)
    (url : string) (resp : Response) (soup : Soup) :
  http_get w url = inr resp ->
  html_parser w (content resp) = inr soup ->
  let text := soup_text soup in
  let wc := len (str_split text) in
  let pnf := str_in "page not found" (str_lower text) in
  let err := str_in "error" (str_lower text) in
  exists r,
    validate_source_quality self url w = (Returned r, [EvGet url])
    /\ (quality_score r = -1 <-> wc > 10000 /\ pnf = false /\ err = true)
    /\ (quality_score r = -1 -> word_count r > 10000 /\ issues r = ["Error page"]).
Proof.
  intros Hget Hparse text wc pnf err.
  eexists. split; [eapply validate_fetch_ok; eauto|].
  rewrite quality_of_soup_sum. fold text. fold wc. fold pnf. fold err.
  cbn [quality_score word_count issues].
  destruct (Z.ltb_spec wc 100), (Z.gtb_spec wc 10000), pnf, err; cbn;
    repeat split; try lia; try discriminate; try reflexivity;
    try (intros (? & ? & ?); lia || discriminate).
Qed.

Lemma score_minus_one_on_success_witness :
  let page := {| find_all_a := []; soup_text := text_long_error |} in
  exists r,
    validate_source_quality SearchAgent_init "https://example.org/sermons"
      (static_world 200 page)
      = (Returned r, [EvGet "https://example.org/sermons"])
    /\ quality_score r = -1
    /\ word_count r > 10000
    /\ issues r = ["Error page"].
Proof.
  intros page.
  destruct (score_minus_one_on_success SearchAgent_init (static_world 200 page)
              "https://example.org/sermons"
              {| status_code := 200; content := "body" |} page eq_refl eq_refl)
    as (r & Hrun & Hiff & Hcount).
  assert (Hscore : quality_score r = -1).
  { apply Hiff. vm_compute. repeat split. }
  exists r. split; [exact Hrun|]. split; [exact Hscore|]. exact (Hcount Hscore).
Defined.

(** X4. No method looks at the status code of a response: in a world that
    differs only in the status codes, the assessor, the two strategies and
    the aggregator return the same value and leave the same trace. A page
    served with status 404 or 500 is parsed and scored like any other. *)
Theorem status_code_is_ignored (self : SearchAgent) (w : World)
    (status : string -> Z) (author_name url : string) :
  validate_source_quality self url (with_status status w)
    = validate_source_quality self url w
  /\ _search_ccel self author_name (with_status status w)
     = _search_ccel self author_name w
  /\ _search_newadvent self author_name (with_status status w)
     = _search_newadvent self author_name w
  /\ find_works_by_author self author_name (with_status status w)
     = find_works_by_author self author_name w.
Proof.
  assert (Hccel : _search_ccel self author_name (with_status status w)
                  = _search_ccel self author_name w).
  { unfold _search_ccel.
    destruct (ccel_authors self !! author_name) as [path|]; [|reflexivity].
    destruct (negb (truthy path)); [reflexivity|].
    run_method. cbn [http_get html_parser with_status].
    destruct (http_get w _) as [e|resp]; reflexivity. }
  assert (Hnewadvent : _search_newadvent self author_name (with_status status w)
                       = _search_newadvent self author_name w).
  { unfold _search_newadvent. run_method. cbn [http_get html_parser with_status].
    destruct (http_get w _) as [e|resp]; reflexivity. }
  split; [|split; [exact Hccel | split; [exact Hnewadvent|]]].
  - unfold validate_source_quality. run_method.
    cbn [http_get html_parser with_status].
    destruct (http_get w url) as [e|resp]; reflexivity.
  - rewrite !find_works_unfold. unfold bind. now rewrite Hccel, Hnewadvent.
Qed.

(** X5. An exception raised by the parser, after the fetch went well, is
    reported by the assessor like a failed fetch: score [-1], word count
    [0], invalid, and the issue ["Error accessing URL: "] followed by the
    message of the parser. *)
Theorem parser_failure_reported_as_access_error (self : SearchAgent) (w : World)
    (url : string) (resp : Response) (e : Exception) :
  http_get w url = inr resp ->
  html_parser w (content resp) = inl e ->
  validate_source_quality self url w =
    (Returned {| quality_score := -1;
                 word_count := 0;
                 issues := ["Error accessing URL: " +:+ exc_str e];
                 is_valid := false |},
     [EvGet url]).
Proof.
  intros Hget Hparse. unfold validate_source_quality. run_method.
  rewrite Hget, Hparse. reflexivity.
Qed.

Lemma parser_failure_reported_as_access_error_witness :
  validate_source_quality SearchAgent_init "https://example.org/garbled"
    (sample_world Up Up) =
    (Returned {| quality_score := -1;
                 word_count := 0;
                 issues := ["Error accessing URL: markup rejected"];
                 is_valid := false |},
     [EvGet "https://example.org/garbled"]).
Proof.
  apply (parser_failure_reported_as_access_error SearchAgent_init
           (sample_world Up Up) "https://example.org/garbled"
           {| status_code := 200; content := "garbled" |}
           (Exc "markup rejected"));
    reflexivity.
Defined.

(** ** Blank text *)

Lemma isspace_lower_char (c : ascii) : isspace (lower_char c) = isspace c.
Proof. destruct c as [[] [] [] [] [] [] [] []]; reflexivity. Qed.

Lemma all_space_lower (s : string) : all_space (str_lower s) = all_space s.
Proof.
  induction s as [|c s IH]; [reflexivity|].
  cbn. now rewrite isspace_lower_char, IH.
Qed.

Lemma all_space_app (s t : string) :
  all_space (s +:+ t) = all_space s && all_space t.
Proof.
  induction s as [|c s IH]; [reflexivity|].
  rewrite str_app_cons. cbn. now rewrite IH, andb_assoc.
Qed.

(** What occurs in a blank string is blank. *)
Lemma str_in_all_space (needle hay : string) :
  str_in needle hay = true -> all_space hay = true -> all_space needle = true.
Proof.
  rewrite str_in_spec. intros (l & r & ->).
  rewrite !all_space_app, !andb_true_iff. tauto.
Qed.

Lemma split_from_some (t s : string) : split_from (Some t) s <> [].
Proof.
  revert t. induction s as [|c s IH]; intros t; cbn; [discriminate|].
  destruct (isspace c); [discriminate | apply IH].
Qed.

Lemma str_split_nil (s : string) : str_split s = [] <-> all_space s = true.
Proof.
  unfold str_split. induction s as [|c s IH]; cbn; [tauto|].
  destruct (isspace c); cbn; [exact IH|].
  split; [intros H; now apply split_from_some in H | discriminate].
Qed.

Lemma all_space_lstrip (s : string) : all_space (str_lstrip s) = all_space s.
Proof.
  induction s as [|c s IH]; [reflexivity|].
  cbn. destruct (isspace c) eqn:Hc; [exact IH|]. cbn. now rewrite Hc.
Qed.

Lemma str_rstrip_nil (s : string) : str_rstrip s = "" <-> all_space s = true.
Proof.
  induction s as [|c s IH]; cbn; [tauto|].
  destruct (str_rstrip s) eqn:Hr.
  - destruct (isspace c); cbn; [tauto|]. split; discriminate.
  - split; [discriminate|]. rewrite andb_true_iff. intros [_ Hs].
    apply IH in Hs. discriminate.
Qed.

(** [s.strip()] is empty exactly for a string of white space. *)
Lemma str_strip_nil (s : string) : str_strip s = "" <-> all_space s = true.
Proof. unfold str_strip. now rewrite str_rstrip_nil, all_space_lstrip. Qed.

(** X6. A page is counted as having no word exactly when its text is blank
    (empty once stripped), and the report of a blank page is always the
    same: score [-2], the one issue ["Very short text"], invalid. *)
Theorem blank_page_report (self : SearchAgent) (w : World) (url : string)
    (resp : Response) (soup : Soup) :
  http_get w url = inr resp ->
  html_parser w (content resp) = inr soup ->
  (exists r,
     validate_source_quality self url w = (Returned r, [EvGet url])
     /\ (word_count r = 0 <-> str_strip (soup_text soup) = ""))
  /\ (str_strip (soup_text soup) = "" ->
      validate_source_quality self url w =
        (Returned {| quality_score := -2;
                     word_count := 0;
                     issues := ["Very short text"];
                     is_valid := false |},
         [EvGet url])).
Proof.
  intros Hget Hparse.
  rewrite (validate_fetch_ok _ _ _ _ _ Hget Hparse), quality_of_soup_sum.
  split.
  - eexists. split; [reflexivity|]. cbn [word_count].
    rewrite str_strip_nil, <- str_split_nil. unfold len.
    destruct (str_split (soup_text soup)); cbn; split;
      (reflexivity || discriminate || lia).
  - intros Hblank. apply str_strip_nil in Hblank.
    assert (Hnone : forall needle,
              all_space needle = false ->
              str_in needle (str_lower (soup_text soup)) = false).
    { intros needle Hneedle.
      destruct (str_in needle (str_lower (soup_text soup))) eqn:Hin;
        [|reflexivity].
      apply str_in_all_space in Hin; [congruence|].
      now rewrite all_space_lower. }
    assert (Hpnf := Hnone "page not found" eq_refl).
    assert (Herr := Hnone "error" eq_refl).
    rewrite Hpnf, Herr. apply str_split_nil in Hblank. rewrite Hblank.
    reflexivity.
Qed.

Lemma blank_page_report_witness :
  let page := {| find_all_a := []; soup_text := " 
	 " |} in
  validate_source_quality SearchAgent_init "https://example.org/blank"
    (static_world 200 page) =
    (Returned {| quality_score := -2;
                 word_count := 0;
                 issues := ["Very short text"];
                 is_valid := false |},
     [EvGet "https://example.org/blank"]).
Proof.
  intros page.
  apply (blank_page_report SearchAgent_init (static_world 200 page)
           "https://example.org/blank"
           {| status_code := 200; content := "body" |} page eq_refl eq_refl).
  reflexivity.
Defined.

(** ** Matching of the author name at New Advent *)

Lemma str_in_empty (s : string) : str_in "" s = true.
Proof. destruct s; reflexivity. Qed.

Lemma filter_sublist_impl {A} (P Q : A -> Prop)
    `{!forall x, Decision (P x)} `{!forall x, Decision (Q x)} (l : list A) :
  (forall x, P x -> Q x) -> sublist (filter P l) (filter Q l).
Proof.
  intros HPQ. induction l as [|x l IH]; [constructor|].
  rewrite !filter_cons. destruct (decide (P x)) as [HP|HP].
  - rewrite decide_True by auto. now constructor.
  - destruct (decide (Q x)); [now constructor | exact IH].
Qed.

(** X7. The New Advent strategy does not tell the case of the author name:
    two names that are equal once lowered get the same titles, urls and
    sources, in the same order, from the same request. *)
Theorem newadvent_ignores_author_case (self : SearchAgent) (w : World)
    (a b : string) :
  str_lower a = str_lower b ->
  exists na nb ta tb,
    _search_newadvent self a w = (Returned na, ta)
    /\ _search_newadvent self b w = (Returned nb, tb)
    /\ (fun wk => (title wk, url wk, source wk)) <$> na
       = (fun wk => (title wk, url wk, source wk)) <$> nb
    /\ requests ta = requests tb
    /\ slept ta = slept tb.
Proof.
  intros Hlow.
  destruct (http_get w (newadvent_search_url self)) as [e|resp] eqn:Hget.
  { do 4 eexists. split; [apply (search_newadvent_fetch_raises _ _ _ _ Hget)|].
    split; [apply (search_newadvent_fetch_raises _ _ _ _ Hget)|]. done. }
  destruct (html_parser w (content resp)) as [e|soup] eqn:Hparse.
  { do 4 eexists. split; [apply (search_newadvent_parse_raises _ _ _ _ _ Hget Hparse)|].
    split; [apply (search_newadvent_parse_raises _ _ _ _ _ Hget Hparse)|]. done. }
  do 4 eexists. split; [apply (search_newadvent_ok _ _ _ _ _ Hget Hparse)|].
  split; [apply (search_newadvent_ok _ _ _ _ _ Hget Hparse)|].
  split; [|done]. rewrite Hlow, <- !list_fmap_compose. reflexivity.
Qed.

Lemma newadvent_ignores_author_case_witness :
  exists na nb ta tb,
    _search_newadvent SearchAgent_init "ST AUGUSTINE" (sample_world Up Up)
      = (Returned na, ta)
    /\ _search_newadvent SearchAgent_init "st augustine" (sample_world Up Up)
       = (Returned nb, tb)
    /\ (fun wk => (title wk, url wk, source wk)) <$> na
       = (fun wk => (title wk, url wk, source wk)) <$> nb
    /\ requests ta = requests tb
    /\ slept ta = slept tb.
Proof.
  apply (newadvent_ignores_author_case SearchAgent_init (sample_world Up Up)
           "ST AUGUSTINE" "st augustine").
  reflexivity.
Defined.

(** X8. At New Advent a shorter name finds at least what a longer one
    finds: when the lowered name [a] occurs in the lowered name [b], the
    titles, urls and sources returned for [b] are among those returned for
    [a], in the same order. *)
Theorem newadvent_shorter_name_finds_more (self : SearchAgent) (w : World)
    (a b : string) :
  str_in (str_lower a) (str_lower b) = true ->
  exists na nb ta tb,
    _search_newadvent self a w = (Returned na, ta)
    /\ _search_newadvent self b w = (Returned nb, tb)
    /\ sublist ((fun wk => (title wk, url wk, source wk)) <$> nb)
               ((fun wk => (title wk, url wk, source wk)) <$> na).
Proof.
  intros Hin.
  destruct (http_get w (newadvent_search_url self)) as [e|resp] eqn:Hget.
  { do 4 eexists. split; [apply (search_newadvent_fetch_raises _ _ _ _ Hget)|].
    split; [apply (search_newadvent_fetch_raises _ _ _ _ Hget)|]. constructor. }
  destruct (html_parser w (content resp)) as [e|soup] eqn:Hparse.
  { do 4 eexists. split; [apply (search_newadvent_parse_raises _ _ _ _ _ Hget Hparse)|].
    split; [apply (search_newadvent_parse_raises _ _ _ _ _ Hget Hparse)|]. constructor. }
  do 4 eexists. split; [apply (search_newadvent_ok _ _ _ _ _ Hget Hparse)|].
  split; [apply (search_newadvent_ok _ _ _ _ _ Hget Hparse)|].
  rewrite <- !list_fmap_compose. apply fmap_sublist.
  apply filter_sublist_impl. intros l [Hb Hmark]. split; [|exact Hmark].
  now apply str_in_trans with (b := str_lower b).
Qed.

Lemma newadvent_shorter_name_finds_more_witness :
  exists na nb ta tb,
    _search_newadvent SearchAgent_init "August" (sample_world Up Up)
      = (Returned na, ta)
    /\ _search_newadvent SearchAgent_init "St Augustine" (sample_world Up Up)
       = (Returned nb, tb)
    /\ sublist ((fun wk => (title wk, url wk, source wk)) <$> nb)
               ((fun wk => (title wk, url wk, source wk)) <$> na).
Proof.
  apply (newadvent_shorter_name_finds_more SearchAgent_init (sample_world Up Up)
           "August" "St Augustine").
  reflexivity.
Defined.

(** X9. With the empty author name the New Advent strategy keeps every
    anchor whose href contains ["/fathers/"], whatever its text, even an
    empty one; when the CCEL table has no entry for the empty name, this is
    also what the aggregator returns. *)
Theorem empty_author_matches_every_anchor (self : SearchAgent) (w : World)
    (resp : Response) (soup : Soup) :
  http_get w (newadvent_search_url self) = inr resp ->
  html_parser w (content resp) = inr soup ->
  let all := (fun l => {| title := str_strip (get_text l);
                          url := newadvent_base_url self +:+ href l;
                          source := "newadvent";
                          author := "" |})
             <$> filter (fun l => str_in "/fathers/" (href l) = true)
                        (find_all_a soup) in
  _search_newadvent self "" w
    = (Returned all, [EvGet (newadvent_search_url self); EvSleep 1])
  /\ (ccel_authors self !! "" = None ->
      find_works_by_author self "" w
        = (Returned all, [EvGet (newadvent_search_url self); EvSleep 1])).
Proof.
  intros Hget Hparse all.
  assert (Hrun : _search_newadvent self "" w
                 = (Returned all, [EvGet (newadvent_search_url self); EvSleep 1])).
  { rewrite (search_newadvent_ok _ _ _ _ _ Hget Hparse). subst all.
    do 3 f_equal. apply list_filter_iff. intros l. cbn [str_lower].
    rewrite str_in_empty. tauto. }
  split; [exact Hrun|]. intros Hnone.
  rewrite (find_works_run self "" w [] all [] _ (search_ccel_unknown _ _ _ Hnone) Hrun).
  reflexivity.
Qed.

Lemma empty_author_matches_every_anchor_witness :
  exists works,
    find_works_by_author SearchAgent_init "" (sample_world Up Up)
      = (Returned works, [EvGet "https://www.newadvent.org/fathers"; EvSleep 1])
    /\ title <$> works
       = ["Confessions (ST AUGUSTINE)"; "Letters of st augustine";
          "Homilies (St John Chrysostom)"; "City of God - St Augustine"].
Proof.
  destruct (empty_author_matches_every_anchor SearchAgent_init (sample_world Up Up)
              {| status_code := 200; content := "newadvent-fathers" |}
              {| find_all_a := newadvent_anchors;
                 soup_text := "The Fathers of the Church" |}
              eq_refl eq_refl) as [_ Hall].
  eexists. split; [apply Hall; vm_compute; reflexivity|].
  vm_compute. reflexivity.
Defined.

(** ** Requests, sleeps and printed lines *)




(** X11. A strategy returns at most one work per anchor of its page. *)
Theorem works_bounded_by_anchors (self : SearchAgent) (w : World)
    (author_name : string) :
  (forall author_path resp soup c tc,
     ccel_authors self !! author_name = Some author_path ->
     http_get w (ccel_base_url self +:+ author_path) = inr resp ->
     html_parser w (content resp) = inr soup ->
     _search_ccel self author_name w = (Returned c, tc) ->
     (length c <= length (find_all_a soup))%nat)
  /\ (forall resp soup n tn,
        http_get w (newadvent_search_url self) = inr resp ->
        html_parser w (content resp) = inr soup ->
        _search_newadvent self author_name w = (Returned n, tn) ->
        (length n <= length (find_all_a soup))%nat).
Proof.
  split.
  - intros path resp soup c tc Hpath Hget Hparse Hrun.
    destruct (decide (path = "")) as [->|Hne].
    { rewrite search_ccel_empty_path in Hrun by done.
      apply Returned_inj in Hrun as [<- _]. cbn. lia. }
    rewrite (search_ccel_ok _ _ _ _ _ _ Hpath Hne Hget Hparse) in Hrun.
    apply Returned_inj in Hrun as [<- _].
    rewrite length_fmap. apply length_filter.
  - intros resp soup n tn Hget Hparse Hrun.
    rewrite (search_newadvent_ok _ _ _ _ _ Hget Hparse) in Hrun.
    apply Returned_inj in Hrun as [<- _].
    rewrite length_fmap. apply length_filter.
Qed.

Lemma works_bounded_by_anchors_witness :
  (exists c tc,
     _search_ccel SearchAgent_init "St Augustine" (sample_world Up Up)
       = (Returned c, tc)
     /\ (length c <= length ccel_anchors)%nat)
  /\ (exists n tn,
        _search_newadvent SearchAgent_init "St Augustine" (sample_world Up Up)
          = (Returned n, tn)
        /\ (length n <= length newadvent_anchors)%nat).
Proof.
  destruct (works_bounded_by_anchors SearchAgent_init (sample_world Up Up)
              "St Augustine") as [Hccel Hnewadvent].
  split.
  - do 2 eexists. split; [vm_compute; reflexivity|].
    apply (Hccel "/ccel/augustine"
             {| status_code := 200; content := "ccel-augustine" |}
             {| find_all_a := ccel_anchors; soup_text := "Works of St Augustine" |}
             _ [EvGet "https://www.ccel.org/ccel/augustine"; EvSleep 1]);
      vm_compute; reflexivity.
  - do 2 eexists. split; [vm_compute; reflexivity|].
    apply (Hnewadvent
             {| status_code := 200; content := "newadvent-fathers" |}
             {| find_all_a := newadvent_anchors;
                soup_text := "The Fathers of the Church" |}
             _ [EvGet "https://www.newadvent.org/fathers"; EvSleep 1]);
      vm_compute; reflexivity.
Defined.


(** ** The works returned *)

Lemma str_rstrip_idem (s : string) : str_rstrip (str_rstrip s) = str_rstrip s.
Proof.
  assert (Hstep : forall c t,
            str_rstrip (String c t) =
              match str_rstrip t with
              | EmptyString => if isspace c then EmptyString else String c EmptyString
              | r => String c r
              end) by reflexivity.
  induction s as [|c s IH]; [reflexivity|].
  rewrite (Hstep c s). destruct (str_rstrip s) as [|c' r] eqn:Hr.
  - destruct (isspace c) eqn:Hc; [reflexivity|]. cbn. now rewrite Hc.
  - rewrite Hstep, IH. reflexivity.
Qed.

Lemma str_lstrip_head (s : string) (c : ascii) (t : string) :
  str_lstrip s = String c t -> isspace c = false.
Proof.
  induction s as [|c' s IH]; cbn; [discriminate|].
  destruct (isspace c') eqn:Hc; [exact IH|]. intros H. now injection H as <- <-.
Qed.

Lemma str_rstrip_head (c : ascii) (t : string) :
  isspace c = false -> exists r, str_rstrip (String c t) = String c r.
Proof.
  intros Hc. cbn. destruct (str_rstrip t); [rewrite Hc|]; eauto.
Qed.

(** Stripping a stripped string changes nothing. *)
Lemma str_strip_idem (s : string) : str_strip (str_strip s) = str_strip s.
Proof.
  unfold str_strip. destruct (str_lstrip s) as [|c t] eqn:Hl; [reflexivity|].
  pose proof (str_lstrip_head _ _ _ Hl) as Hc.
  destruct (str_rstrip_head c t Hc) as [r Hr]. rewrite Hr.
  cbn [str_lstrip]. rewrite Hc, <- Hr. apply str_rstrip_idem.
Qed.

(** X12. Every work the aggregator returns carries the author name that
    was asked for, as it was typed, a title with no white space at either
    end, and one of the two sources; a work of CCEL has a title that is not
    empty. *)
Theorem returned_works_are_well_formed (self : SearchAgent) (w : World)
    (author_name : string) :
  exists works t,
    find_works_by_author self author_name w = (Returned works, t)
    /\ Forall (fun wk =>
                 author wk = author_name
                 /\ str_strip (title wk) = title wk
                 /\ ((source wk = "ccel" /\ title wk <> "")
                     \/ source wk = "newadvent"))
              works.
Proof.
  destruct (search_ccel_returns self author_name w) as (c & tc & Hc).
  destruct (search_newadvent_returns self author_name w) as (n & tn & Hn).
  do 2 eexists. split; [apply (find_works_run _ _ _ _ _ _ _ Hc Hn)|].
  apply Forall_app. split.
  - destruct (search_ccel_inv _ _ _ _ _ Hc)
      as [-> | (? & ? & ? & _ & _ & _ & _ & ->)]; [constructor|].
    apply Forall_fmap, Forall_forall. intros l Hl.
    apply list_elem_of_filter in Hl as [(_ & _ & Htitle) _]. cbn.
    split; [reflexivity|]. split; [apply str_strip_idem | now left].
  - destruct (search_newadvent_inv _ _ _ _ _ Hn)
      as [-> | (? & ? & _ & _ & ->)]; [constructor|].
    apply Forall_fmap, Forall_forall. intros l _. cbn.
    split; [reflexivity|]. split; [apply str_strip_idem | now right].
Qed.

(** ** The table of the constructor *)

Lemma search_ccel_listed (self : SearchAgent) (author_name author_path : string)
    (w : World) :
  ccel_authors self !! author_name = Some author_path ->
  author_path <> "" ->
  exists works t,
    _search_ccel self author_name w = (Returned works, t)
    /\ requests t = [ccel_base_url self +:+ author_path].
Proof.
  intros Hpath Hne.
  destruct (http_get w (ccel_base_url self +:+ author_path)) as [e|resp] eqn:Hget.
  { do 2 eexists. split; [apply (search_ccel_fetch_raises _ _ _ _ _ Hpath Hne Hget)|].
    reflexivity. }
  destruct (html_parser w (content resp)) as [e|soup] eqn:Hparse.
  { do 2 eexists.
    split; [apply (search_ccel_parse_raises _ _ _ _ _ _ Hpath Hne Hget Hparse)|].
    reflexivity. }
  do 2 eexists. split; [apply (search_ccel_ok _ _ _ _ _ _ Hpath Hne Hget Hparse)|].
  reflexivity.
Qed.

(** X13. The agent as [__init__] builds it asks CCEL about four names
    only, spelled as in its table (the lookup tells upper from lower case):
    for these it sends one request, under [https://www.ccel.org/ccel/]; for
    any other name it sends none. *)
Theorem init_queries_ccel_for_listed_names (author_name : string) (w : World) :
  exists works t,
    _search_ccel SearchAgent_init author_name w = (Returned works, t)
    /\ (requests t <> [] <->
        author_name ∈ ["St John Chrysostom"; "St Augustine"; "St Basil"; "St Gregory"])
    /\ (length (requests t) <= 1)%nat
    /\ Forall (fun u => str_startswith "https://www.ccel.org/ccel/" u = true)
              (requests t).
Proof.
  assert (Hlisted : forall path,
            ccel_authors SearchAgent_init !! author_name = Some path ->
            path <> "" ->
            str_startswith "https://www.ccel.org/ccel/" ("https://www.ccel.org" +:+ path) = true ->
            author_name ∈ ["St John Chrysostom"; "St Augustine"; "St Basil"; "St Gregory"] ->
            exists works t,
              _search_ccel SearchAgent_init author_name w = (Returned works, t)
              /\ (requests t <> [] <->
                  author_name ∈ ["St John Chrysostom"; "St Augustine"; "St Basil"; "St Gregory"])
              /\ (length (requests t) <= 1)%nat
              /\ Forall (fun u => str_startswith "https://www.ccel.org/ccel/" u = true)
                        (requests t)).
  { intros path Hpath Hne Hprefix Hin.
    destruct (search_ccel_listed _ _ _ w Hpath Hne) as (works & t & Hrun & Hreq).
    exists works, t. split; [exact Hrun|]. rewrite Hreq. cbn [ccel_base_url SearchAgent_init].
    split; [split; [intros _; exact Hin | discriminate]|].
    split; [cbn; lia|]. repeat constructor. exact Hprefix. }
  destruct (decide (author_name = "St John Chrysostom")) as [->|H1].
  { apply (Hlisted "/ccel/chrysostom"); [reflexivity | discriminate | reflexivity|].
    set_solver. }
  destruct (decide (author_name = "St Augustine")) as [->|H2].
  { apply (Hlisted "/ccel/augustine"); [reflexivity | discriminate | reflexivity|].
    set_solver. }
  destruct (decide (author_name = "St Basil")) as [->|H3].
  { apply (Hlisted "/ccel/basil"); [reflexivity | discriminate | reflexivity|].
    set_solver. }
  destruct (decide (author_name = "St Gregory")) as [->|H4].
  { apply (Hlisted "/ccel/gregory"); [reflexivity | discriminate | reflexivity|].
    set_solver. }
  exists [], []. split.
  - apply search_ccel_unknown. cbn [ccel_authors SearchAgent_init].
    rewrite !lookup_insert_ne by done. apply lookup_empty.
  - cbn. split; [|split; [lia | constructor]].
    split; [done|]. rewrite !elem_of_cons, elem_of_nil. tauto.
Qed.

Lemma init_queries_ccel_for_listed_names_witness :
  exists works t,
    _search_ccel SearchAgent_init "St Basil" (sample_world Up Up)
      = (Returned works, t)
    /\ requests t = ["https://www.ccel.org/ccel/basil"].
Proof.
  destruct (init_queries_ccel_for_listed_names "St Basil" (sample_world Up Up))
    as (works & t & Hrun & Hiff & Hone & Hprefix).
  exists works, t. split; [exact Hrun|].
  assert (Hsent : requests t <> []).
  { apply Hiff. do 2 apply list_elem_of_further. apply list_elem_of_here. }
  vm_compute in Hrun. apply Returned_inj in Hrun as [_ <-]. reflexivity.
Defined.

(** ** The script *)

Lemma for_each_print {A} (line : A -> string) (l : list A) (w : World) :
  for_each l (fun x => print (line x)) w
    = (Returned tt, (fun x => EvPrint (line x)) <$> l).
Proof.
  induction l as [|x l IH]; [reflexivity|].
  cbn [for_each]. unfold bind, print at 1. now rewrite IH.
Qed.

(** X14. The script at the end of the module never raises: it searches for
    ["St John Chrysostom"], prints the number of works found in decimal,
    then one line [- title (source)] for each of the first five works in
    order, and nothing for the others; so it prints at most six lines after
    the search. *)
Theorem main_prints_summary (w : World) :
  exists works t,
    find_works_by_author SearchAgent_init "St John Chrysostom" w
      = (Returned works, t)
    /\ main w =
         (Returned tt,
          t ++ EvPrint ("Found " +:+ str_of_int (len works)
                        +:+ " works by St John Chrysostom")
            :: ((fun work => EvPrint ("- " +:+ title work +:+ " ("
                                      +:+ source work +:+ ")"))
                <$> take 5 works))
    /\ length (printed (snd (main w)))
       = (length (printed t) + 1 + min 5 (length works))%nat.
Proof.
  destruct (search_ccel_returns SearchAgent_init "St John Chrysostom" w)
    as (c & tc & Hc).
  destruct (search_newadvent_returns SearchAgent_init "St John Chrysostom" w)
    as (n & tn & Hn).
  pose proof (find_works_run _ _ _ _ _ _ _ Hc Hn) as Hrun.
  do 2 eexists. split; [exact Hrun|].
  assert (Hmain : main w =
    (Returned tt,
     (tc ++ EvGet (newadvent_search_url SearchAgent_init) :: tn)
     ++ EvPrint ("Found " +:+ str_of_int (len (c ++ n))
                 +:+ " works by St John Chrysostom")
       :: ((fun work => EvPrint ("- " +:+ title work +:+ " ("
                                 +:+ source work +:+ ")"))
           <$> take 5 (c ++ n)))).
  { unfold main. cbv zeta. unfold bind at 1. rewrite Hrun.
    unfold bind, print at 1. rewrite for_each_print. reflexivity. }
  split; [exact Hmain|]. rewrite Hmain. cbn [snd].
  assert (Hprinted : forall t1 t2, printed (t1 ++ t2) = printed t1 ++ printed t2).
  { intros t1 t2. induction t1 as [|[] t1 IH]; cbn; now rewrite ?IH. }
  assert (Hlines : forall (f : Work -> string) l,
            printed ((fun x => EvPrint (f x)) <$> l) = f <$> l).
  { intros f l. induction l as [|x l IH]; cbn; now rewrite ?IH. }
  rewrite Hprinted. cbn [printed]. rewrite Hlines.
  rewrite length_app. cbn [length]. rewrite length_fmap, length_take. lia.
Qed.

Example main_on_sample_world :
  main (sample_world Up Up) =
    (Returned tt,
     [EvGet "https://www.ccel.org/ccel/chrysostom";
      EvPrint "Error searching CCEL for St John Chrysostom: name resolution failed";
      EvGet "https://www.newadvent.org/fathers";
      EvSleep 1;
      EvPrint "Found 1 works by St John Chrysostom";
      EvPrint "- Homilies (St John Chrysostom) (newadvent)"]).
Proof. vm_compute. reflexivity. Qed.

(** ** Flagged words, in any case *)

(** X15. The two flagged substrings are looked for without regard to
    case and anywhere in the text, inside a longer word too: a fetched page
    whose text contains any spelling of ["page not found"] gets the issue
    ["Page not found"], one that contains any spelling of ["error"] gets
    ["Error page"], and either way the page is invalid. *)
Theorem flagged_in_any_case (self : SearchAgent) (w : World) (url : string)
    (resp : Response) (soup : Soup) (spelling : string) :
  http_get w url = inr resp ->
  html_parser w (content resp) = inr soup ->
  str_in spelling (soup_text soup) = true ->
  exists r,
    validate_source_quality self url w = (Returned r, [EvGet url])
    /\ (str_lower spelling = "page not found" ->
        "Page not found" ∈ issues r /\ is_valid r = false)
    /\ (str_lower spelling = "error" ->
        "Error page" ∈ issues r /\ is_valid r = false).
Proof.
  intros Hget Hparse Hin. apply str_in_lower in Hin.
  eexists. split; [eapply validate_fetch_ok; eauto|].
  rewrite quality_of_soup_sum. cbn [issues is_valid].
  split; intros Hlow; rewrite Hlow in Hin; rewrite Hin.
  - split.
    + apply elem_of_app. right. apply elem_of_app. left. apply list_elem_of_here.
    + repeat match goal with |- context [if ?b then _ else _] => destruct b end;
        reflexivity.
  - split.
    + apply elem_of_app. right. apply elem_of_app. right. apply list_elem_of_here.
    + repeat match goal with |- context [if ?b then _ else _] => destruct b end;
        reflexivity.
Qed.

Lemma flagged_in_any_case_witness :
  let page := {| find_all_a := [];
                 soup_text := str_repeat 200 "amen " +:+ "No TERRORS here" |} in
  exists r,
    validate_source_quality SearchAgent_init "https://example.org/psalm"
      (static_world 200 page)
      = (Returned r, [EvGet "https://example.org/psalm"])
    /\ "Error page" ∈ issues r
    /\ is_valid r = false.
Proof.
  intros page.
  destruct (flagged_in_any_case SearchAgent_init (static_world 200 page)
              "https://example.org/psalm"
              {| status_code := 200; content := "body" |} page "ERROR"
              eq_refl eq_refl)
    as (r & Hrun & _ & Herror).
  - vm_compute. reflexivity.
  - exists r. split; [exact Hrun|]. apply Herror. reflexivity.
Defined.
